(** * Ledger posting, document totals and payment status of the ERP system

    A shallow embedding of the domain logic of
    [System/accounting/models.py], [System/sales/models.py] and
    [System/purchasing/models.py], and of the figures the views
    [trial_balance], [sales_invoice_list] and [purchase_bill_list] compute
    from it.

    Conventions of the embedding.
    - A Python [Decimal] is taken at its exact rational value ([Q], compared
      with [==]): the default context carries 28 significant digits, the
      columns at most 15, and the context's own rounding of a quotient is not
      modelled.  [round(x, n)] on a [Decimal] is [quantize] with
      ROUND_HALF_EVEN and is written out below.
    - A database table is a list of rows; a queryset is a [filter] over it;
      [save()] writes a whole row, [save(update_fields=[...])] writes only the
      named columns.  The value kept in a column is the value handed to
      [save].
    - A method that mutates [self] and may raise returns the store, the
      object as it is left in memory, and the outcome.
    - A related object reached through a foreign key ([line.tax],
      [order.customer]) is carried by the row that points to it. *)

From Stdlib Require Import ZArith QArith Qround Qabs Lqa Lia List String Bool.
Import ListNotations.
Open Scope Q_scope.

(** ** Python runtime pieces used by the models *)

Module Py.

(** What a ValueError raised by the models says. *)
Inductive message : Type :=
| EntryAlreadyPosted
| DebitMustEqualCredit (debit_total credit_total : Q).

Inductive exn : Type :=
| ValueError (msg : message)
| NameError (name : string)
| DivisionByZero.

Inductive outcome : Type :=
| Returned
| Raised (e : exn).

(** The builtin [sum]: starts from the int 0 and adds from the left. *)
Definition py_sum (xs : list Q) : Q := fold_left Qplus xs 0.

(** [qs.aggregate(total=Sum(col))['total']]: NULL on an empty queryset. *)
Definition Sum (xs : list Q) : option Q :=
  match xs with
  | [] => None
  | _ :: _ => Some (py_sum xs)
  end.

(** [v or 0]: [None] and a zero Decimal are both falsy. *)
Definition or_0 (v : option Q) : Q :=
  match v with
  | None => 0
  | Some d => if Qeq_bool d 0 then 0 else d
  end.

(** [a < b] on Decimals. *)
Definition Qlt_bool (a b : Q) : bool := negb (Qle_bool b a).

(** Rounding to an integer, ties to the even neighbour. *)
Definition round_half_even (x : Q) : Z :=
  let f := Qfloor x in
  match ((x - inject_Z f) ?= (1 # 2))%Q with
  | Lt => f
  | Gt => (f + 1)%Z
  | Eq => if Z.even f then f else (f + 1)%Z
  end.

Definition pow10 (n : nat) : Q := inject_Z (10 ^ Z.of_nat n).

(** [round(x, ndigits)] for a Decimal [x]. *)
Definition py_round (x : Q) (ndigits : nat) : Q :=
  inject_Z (round_half_even (x * pow10 ndigits)) / pow10 ndigits.

(** What rounding [x] to [ndigits] decimal places, ties to even, means for a
    result [r]: [r] is a whole number [k] of units [10^-ndigits], no unit is
    nearer to [x], and [k] is even when [x] lies half-way between two. *)
Definition half_even_rounding (ndigits : nat) (x r : Q) : Prop :=
  exists k : Z,
    r == inject_Z k / pow10 ndigits
    /\ Qabs (x * pow10 ndigits - inject_Z k) <= 1 # 2
    /\ (Qabs (x * pow10 ndigits - inject_Z k) == 1 # 2 -> Z.even k = true).

(** [a / b] on Decimals: a zero divisor raises (DivisionByZero, a
    subclass of ZeroDivisionError; InvalidOperation when [a] is zero too). *)
Definition py_div (a b : Q) : option Q :=
  if Qeq_bool b 0 then None else Some (a / b).

End Py.

(** ** accounting/models.py *)

Module Accounting.
Import Py.

Inductive AccountType : Type := asset | liability | equity | income | expense.
Inductive EntryType : Type := debit | credit.
Inductive EntryStatus : Type := draft | posted | reversed.

Definition User := nat.
Definition DateTime := Z.

Record ChartOfAccount : Type := {
  account_id : nat;
  account_type : AccountType;
  is_header : bool;
  balance : Q
}.

Record JournalEntry : Type := {
  entry_id : nat;
  status : EntryStatus;
  posted_by : option User;
  posted_date : option DateTime
}.

Record JournalLine : Type := {
  line_id : nat;
  journal_entry : nat;
  account : nat;
  entry_type : EntryType;
  amount : Q
}.

Record Ledger : Type := {
  accounts : list ChartOfAccount;
  entries : list JournalEntry;
  lines : list JournalLine
}.

Definition EntryType_eqb (a b : EntryType) : bool :=
  match a, b with
  | debit, debit | credit, credit => true
  | _, _ => false
  end.

Definition EntryStatus_eqb (a b : EntryStatus) : bool :=
  match a, b with
  | draft, draft | posted, posted | reversed, reversed => true
  | _, _ => false
  end.

(** [account.journal_entries]: the journal lines whose account is [a]
    (the related name of [JournalLine.account]). *)
Definition journal_entries (db : Ledger) (a : ChartOfAccount) : list JournalLine :=
  filter (fun l => Nat.eqb (account l) (account_id a)) (lines db).

(** [entry.journal_lines]: the journal lines of entry [e]. *)
Definition journal_lines (db : Ledger) (e : JournalEntry) : list JournalLine :=
  filter (fun l => Nat.eqb (journal_entry l) (entry_id e)) (lines db).

(** [qs.filter(entry_type=t).aggregate(total=Sum('amount'))['total'] or 0] *)
Definition total_of (t : EntryType) (qs : list JournalLine) : Q :=
  or_0 (Sum (map amount (filter (fun l => EntryType_eqb (entry_type l) t) qs))).

(** [ChartOfAccount.get_balance] *)
Definition get_balance (db : Ledger) (self : ChartOfAccount) : Q :=
  let debit_total := total_of debit (journal_entries db self) in
  let credit_total := total_of credit (journal_entries db self) in
  match account_type self with
  | asset | expense => debit_total - credit_total
  | liability | equity | income => credit_total - debit_total
  end.

(** [Model.save()] on a journal entry: update the row, insert when absent. *)
Definition save_entry (db : Ledger) (e : JournalEntry) : Ledger :=
  {| accounts := accounts db;
     entries :=
       if existsb (fun r => Nat.eqb (entry_id r) (entry_id e)) (entries db)
       then map (fun r => if Nat.eqb (entry_id r) (entry_id e) then e else r)
                (entries db)
       else entries db ++ [e];
     lines := lines db |}.

(** [Model.save()] on an account read from the store. *)
Definition save_account (db : Ledger) (a : ChartOfAccount) : Ledger :=
  {| accounts :=
       map (fun r => if Nat.eqb (account_id r) (account_id a) then a else r)
           (accounts db);
     entries := entries db;
     lines := lines db |}.

(** [JournalLine(...).save()] for a new line: the class has no [save] of
    its own, the row is inserted whatever the status of its entry. *)
Definition insert_line (db : Ledger) (l : JournalLine) : Ledger :=
  {| accounts := accounts db;
     entries := entries db;
     lines := lines db ++ [l] |}.

(** [line.account]: the row the foreign key points to. *)
Definition find_account (db : Ledger) (id : nat) : option ChartOfAccount :=
  find (fun r => Nat.eqb (account_id r) id) (accounts db).

Definition set_balance (a : ChartOfAccount) (b : Q) : ChartOfAccount :=
  {| account_id := account_id a;
     account_type := account_type a;
     is_header := is_header a;
     balance := b |}.

(** One turn of the loop that closes [post_entry]:
    [line.account.balance = line.account.get_balance(); line.account.save()]. *)
Definition refresh_balance (db : Ledger) (line : JournalLine) : Ledger :=
  match find_account db (account line) with
  | Some a => save_account db (set_balance a (get_balance db a))
  | None => db
  end.

(** [JournalEntry.post_entry] *)
Definition post_entry (db : Ledger) (self : JournalEntry) (user : User)
    (now : DateTime) : Ledger * JournalEntry * outcome :=
  if EntryStatus_eqb (status self) posted then
    (db, self, Raised (ValueError EntryAlreadyPosted))
  else
    let debit_total := total_of debit (journal_lines db self) in
    let credit_total := total_of credit (journal_lines db self) in
    if negb (Qeq_bool debit_total credit_total) then
      (db, self, Raised (ValueError (DebitMustEqualCredit debit_total credit_total)))
    else
      let self' := {| entry_id := entry_id self;
                      status := posted;
                      posted_by := Some user;
                      posted_date := Some now |} in
      let db1 := save_entry db self' in
      (fold_left refresh_balance (journal_lines db1 self') db1, self', Returned).

Record TaxCalc : Type := {
  base_amount : Q;
  tax_amount : Q;
  total_amount : Q
}.

Record Tax : Type := {
  rate : Q;
  is_inclusive : bool
}.

(** [Tax.calculate_tax]; [None] when the division raises. *)
Definition calculate_tax (self : Tax) (amount : Q) : option TaxCalc :=
  if is_inclusive self then
    match py_div (amount * rate self) (1 + rate self) with
    | None => None
    | Some tax =>
        let base := amount - tax in
        Some {| base_amount := py_round base 2;
                tax_amount := py_round tax 2;
                total_amount := py_round (base + tax) 2 |}
    end
  else
    let base := amount in
    let tax := amount * rate self in
    Some {| base_amount := py_round base 2;
            tax_amount := py_round tax 2;
            total_amount := py_round (base + tax) 2 |}.

End Accounting.

(** ** Document lines: [SalesOrderLine], [SalesInvoiceLine],
    [PurchaseOrderLine], [PurchaseBillLine]

    The four classes carry the same columns and the same [save]. *)

Module Line.
Import Py.

Record t : Type := {
  id : nat;
  document : nat;
  quantity : Q;
  unit_price : Q;
  line_total : Q;
  discount_percent : Q;
  discount_amount : Q;
  tax : option Accounting.Tax
}.

Definition set_discount_amount (l : t) (v : Q) : t :=
  {| id := id l; document := document l; quantity := quantity l;
     unit_price := unit_price l; line_total := line_total l;
     discount_percent := discount_percent l; discount_amount := v;
     tax := tax l |}.

Definition set_line_total (l : t) (v : Q) : t :=
  {| id := id l; document := document l; quantity := quantity l;
     unit_price := unit_price l; line_total := v;
     discount_percent := discount_percent l;
     discount_amount := discount_amount l; tax := tax l |}.


(** The assignments that open [save]:
    [if self.discount_percent > 0: self.discount_amount = ...] and
    [self.line_total = (self.quantity * self.unit_price) - self.discount_amount]. *)
Definition compute (self : t) : t :=
  let self1 :=
    if Qlt_bool 0 (discount_percent self) then
      set_discount_amount self
        (quantity self * unit_price self * (discount_percent self / 100))
    else self in
  set_line_total self1
    (quantity self1 * unit_price self1 - discount_amount self1).

(** [super().save()]: update the row with this id, insert when absent. *)
Definition upsert (rows : list t) (l : t) : list t :=
  if existsb (fun r => Nat.eqb (id r) (id l)) rows
  then map (fun r => if Nat.eqb (id r) (id l) then l else r) rows
  else rows ++ [l].

(** [document.<lines>.all()] *)
Definition of_document (rows : list t) (doc : nat) : list t :=
  filter (fun l => Nat.eqb (document l) doc) rows.

(** The tax loop of [calculate_totals], entered with [self.tax_amount = acc]:
    [for line in lines: if line.tax: self.tax_amount += line.tax
    .calculate_tax(line.line_total)['tax_amount']].  It returns the value of
    [self.tax_amount] when the loop is left, and how it was left. *)
Fixpoint tax_loop (lines : list t) (acc : Q) : Q * outcome :=
  match lines with
  | [] => (acc, Returned)
  | line :: rest =>
      match tax line with
      | None => tax_loop rest acc
      | Some tx =>
          match Accounting.calculate_tax tx (line_total line) with
          | Some calc => tax_loop rest (acc + Accounting.tax_amount calc)
          | None => (acc, Raised DivisionByZero)
          end
      end
  end.

(** The validators of [Tax.rate]: every tax on these lines has a rate
    between 0 and 1. *)
Definition rates_valid (lines : list t) : Prop :=
  forall l tx, In l lines -> tax l = Some tx ->
    0 <= Accounting.rate tx /\ Accounting.rate tx <= 1.

(** The amount [calculate_tax] reports as tax on a line taxed by [tx]. *)
Definition tax_due (tx : Accounting.Tax) (l : t) : Q :=
  py_round
    (if Accounting.is_inclusive tx
     then line_total l * Accounting.rate tx / (1 + Accounting.rate tx)
     else line_total l * Accounting.rate tx)
    2.

(** The sum of the tax due over the lines that carry a tax. *)
Fixpoint taxes_due (lines : list t) : Q :=
  match lines with
  | [] => 0
  | l :: rest =>
      match tax l with
      | Some tx => tax_due tx l + taxes_due rest
      | None => taxes_due rest
      end
  end.

End Line.

(** ** Orders: [SalesOrder] and [PurchaseOrder] *)

Module Order.
Import Py.

(** The [Customer] or [Supplier] of the order. *)
Record Party : Type := {
  discount_percent : Q
}.

Record t : Type := {
  id : nat;
  party : Party;
  subtotal : Q;
  discount_amount : Q;
  tax_amount : Q;
  total_amount : Q
}.

Record Store : Type := {
  orders : list t;
  lines : list Line.t
}.

Inductive Field : Type :=
| f_subtotal | f_discount_amount | f_tax_amount | f_total_amount.

Definition set_field (o : t) (f : Field) (v : Q) : t :=
  {| id := id o; party := party o;
     subtotal := match f with f_subtotal => v | _ => subtotal o end;
     discount_amount :=
       match f with f_discount_amount => v | _ => discount_amount o end;
     tax_amount := match f with f_tax_amount => v | _ => tax_amount o end;
     total_amount :=
       match f with f_total_amount => v | _ => total_amount o end |}.

Definition get_field (o : t) (f : Field) : Q :=
  match f with
  | f_subtotal => subtotal o
  | f_discount_amount => discount_amount o
  | f_tax_amount => tax_amount o
  | f_total_amount => total_amount o
  end.

(** [self.save(update_fields=fields)]: the named columns of the row of
    [self] take the values [self] holds. *)
Definition save_update_fields (db : Store) (self : t) (fields : list Field) : Store :=
  {| orders :=
       map (fun row =>
              if Nat.eqb (id row) (id self)
              then fold_left (fun r f => set_field r f (get_field self f)) fields row
              else row)
           (orders db);
     lines := lines db |}.

(** [SalesOrder.calculate_totals] and [PurchaseOrder.calculate_totals] *)
Definition calculate_totals (db : Store) (self : t) : Store * t * outcome :=
  let lines := Line.of_document (lines db) (id self) in
  let self1 := set_field self f_subtotal (py_sum (map Line.line_total lines)) in
  let self2 := set_field self1 f_discount_amount
                 (subtotal self1 * (discount_percent (party self1) / 100)) in
  let '(tax, r) := Line.tax_loop lines 0 in
  let self3 := set_field self2 f_tax_amount tax in
  match r with
  | Raised e => (db, self3, Raised e)
  | Returned =>
      let self4 := set_field self3 f_total_amount
                     (subtotal self3 - discount_amount self3 + tax_amount self3) in
      (save_update_fields db self4
         [f_subtotal; f_discount_amount; f_tax_amount; f_total_amount],
       self4, Returned)
  end.

(** [SalesOrderLine.save] and [PurchaseOrderLine.save]; [order] is the object
    [self.order] (or [self.po]) evaluates to. *)
Definition line_save (db : Store) (self : Line.t) (order : t)
    : Store * Line.t * t * outcome :=
  let self' := Line.compute self in
  let db1 := {| orders := orders db; lines := Line.upsert (lines db) self' |} in
  let '(db2, order', r) := calculate_totals db1 order in
  (db2, self', order', r).

End Order.

(** ** Invoices and payments: [SalesInvoice], [PurchaseBill] and their
    payment allocations *)

Module Invoice.
Import Py.

(** The module a class lives in: [sales/models.py] or [purchasing/models.py]. *)
Inductive App : Type := sales | purchasing.

(** The names bound at module level: the imports at the top of the file,
    then the classes it defines. *)
Definition module_globals (app : App) : list string :=
  match app with
  | sales =>
      ["models"; "User"; "MinValueValidator"; "MaxValueValidator"; "Decimal";
       "BaseModel"; "Company"; "Address"; "Contact"; "Sequence";
       "Product"; "Warehouse"; "Tax"; "ChartOfAccount";
       "Customer"; "SalesOrder"; "SalesOrderLine"; "DeliveryOrder";
       "DeliveryOrderLine"; "SalesInvoice"; "SalesInvoiceLine";
       "SalesPayment"; "SalesPaymentAllocation"]%string
  | purchasing =>
      ["models"; "User"; "MinValueValidator"; "Decimal";
       "BaseModel"; "Company"; "Sequence";
       "Product"; "Warehouse"; "Tax"; "ChartOfAccount";
       "Supplier"; "PurchaseOrder"; "PurchaseOrderLine"; "PurchaseReceipt";
       "PurchaseReceiptLine"; "PurchaseBill"; "PurchaseBillLine";
       "PurchasePayment"; "PurchasePaymentAllocation";
       "SupplierEvaluation"]%string
  end.

(** Whether a global name resolves inside a method of the module (none of
    the names looked up here is a builtin). *)
Definition bound (app : App) (name : string) : bool :=
  existsb (String.eqb name) (module_globals app).

Inductive Status : Type :=
| draft | confirmed | paid | partial_paid | overdue | cancelled.

Definition Status_eqb (a b : Status) : bool :=
  match a, b with
  | draft, draft | confirmed, confirmed | paid, paid
  | partial_paid, partial_paid | overdue, overdue | cancelled, cancelled => true
  | _, _ => false
  end.

Definition Date := Z.

Record t : Type := {
  id : nat;
  due_date : Date;
  subtotal : Q;
  discount_amount : Q;
  tax_amount : Q;
  total_amount : Q;
  paid_amount : Q;
  outstanding_amount : Q;
  status : Status
}.

Record Allocation : Type := {
  allocation_id : nat;
  payment : nat;
  invoice : nat;
  amount : Q
}.

Record Store : Type := {
  invoices : list t;
  lines : list Line.t;
  payment_allocations : list Allocation
}.

Inductive Field : Type :=
| f_subtotal | f_discount_amount | f_tax_amount | f_total_amount
| f_paid_amount | f_outstanding_amount | f_status.

Definition set_amount (o : t) (f : Field) (v : Q) : t :=
  {| id := id o; due_date := due_date o;
     subtotal := match f with f_subtotal => v | _ => subtotal o end;
     discount_amount :=
       match f with f_discount_amount => v | _ => discount_amount o end;
     tax_amount := match f with f_tax_amount => v | _ => tax_amount o end;
     total_amount :=
       match f with f_total_amount => v | _ => total_amount o end;
     paid_amount := match f with f_paid_amount => v | _ => paid_amount o end;
     outstanding_amount :=
       match f with f_outstanding_amount => v | _ => outstanding_amount o end;
     status := status o |}.

Definition set_status (o : t) (s : Status) : t :=
  {| id := id o; due_date := due_date o; subtotal := subtotal o;
     discount_amount := discount_amount o; tax_amount := tax_amount o;
     total_amount := total_amount o; paid_amount := paid_amount o;
     outstanding_amount := outstanding_amount o; status := s |}.

(** Copy column [f] from the object [src] into the row [row]. *)
Definition write_field (src row : t) (f : Field) : t :=
  match f with
  | f_subtotal => set_amount row f (subtotal src)
  | f_discount_amount => set_amount row f (discount_amount src)
  | f_tax_amount => set_amount row f (tax_amount src)
  | f_total_amount => set_amount row f (total_amount src)
  | f_paid_amount => set_amount row f (paid_amount src)
  | f_outstanding_amount => set_amount row f (outstanding_amount src)
  | f_status => set_status row (status src)
  end.

(** [self.save(update_fields=fields)] *)
Definition save_update_fields (db : Store) (self : t) (fields : list Field) : Store :=
  {| invoices :=
       map (fun row =>
              if Nat.eqb (id row) (id self)
              then fold_left (write_field self) fields row
              else row)
           (invoices db);
     lines := lines db;
     payment_allocations := payment_allocations db |}.

(** The status branch of [calculate_totals]; [today] is what
    [timezone.now().date()] yields once the name [timezone] resolves. *)
Definition derive_status (app : App) (today : Date) (self : t) : t * outcome :=
  if Qeq_bool (paid_amount self) 0 then
    if bound app "timezone" then
      if (due_date self <? today)%Z then (set_status self overdue, Returned)
      else if negb (Status_eqb (status self) draft)
           then (set_status self confirmed, Returned)
           else (self, Returned)
    else (self, Raised (NameError "timezone"))
  else if Qle_bool (total_amount self) (paid_amount self)
       then (set_status self paid, Returned)
       else (set_status self partial_paid, Returned).

(** [SalesInvoice.calculate_totals] and [PurchaseBill.calculate_totals] *)
Definition calculate_totals (app : App) (today : Date) (db : Store) (self : t)
    : Store * t * outcome :=
  let lines := Line.of_document (lines db) (id self) in
  let self1 := set_amount self f_subtotal (py_sum (map Line.line_total lines)) in
  let '(tax, r) := Line.tax_loop lines 0 in
  let self2 := set_amount self1 f_tax_amount tax in
  match r with
  | Raised e => (db, self2, Raised e)
  | Returned =>
      let self3 := set_amount self2 f_total_amount
                     (subtotal self2 - discount_amount self2 + tax_amount self2) in
      let self4 := set_amount self3 f_outstanding_amount
                     (total_amount self3 - paid_amount self3) in
      match derive_status app today self4 with
      | (self5, Raised e) => (db, self5, Raised e)
      | (self5, Returned) =>
          (save_update_fields db self5
             [f_subtotal; f_tax_amount; f_total_amount; f_outstanding_amount;
              f_status],
           self5, Returned)
      end
  end.

(** [SalesInvoiceLine.save] and [PurchaseBillLine.save]; [inv] is the object
    [self.invoice] (or [self.bill]) evaluates to. *)
Definition line_save (app : App) (today : Date) (db : Store) (self : Line.t)
    (inv : t) : Store * Line.t * t * outcome :=
  let self' := Line.compute self in
  let db1 := {| invoices := invoices db;
                lines := Line.upsert (lines db) self';
                payment_allocations := payment_allocations db |} in
  let '(db2, inv', r) := calculate_totals app today db1 inv in
  (db2, self', inv', r).

(** [super().save()] on an allocation. *)
Definition upsert_allocation (rows : list Allocation) (a : Allocation)
    : list Allocation :=
  if existsb (fun r => Nat.eqb (allocation_id r) (allocation_id a)) rows
  then map (fun r => if Nat.eqb (allocation_id r) (allocation_id a) then a else r)
           rows
  else rows ++ [a].

(** [invoice.payment_allocations.aggregate(total=Sum('amount'))['total'] or 0] *)
Definition total_allocated (db : Store) (inv : t) : Q :=
  or_0 (Sum (map amount
               (filter (fun a => Nat.eqb (invoice a) (id inv))
                       (payment_allocations db)))).

(** [SalesPaymentAllocation.save] and [PurchasePaymentAllocation.save];
    [inv] is the object [self.invoice] (or [self.bill]) evaluates to. *)
Definition allocation_save (app : App) (today : Date) (db : Store)
    (self : Allocation) (inv : t) : Store * t * outcome :=
  let db1 := {| invoices := invoices db;
                lines := lines db;
                payment_allocations :=
                  upsert_allocation (payment_allocations db) self |} in
  let inv1 := set_amount inv f_paid_amount (total_allocated db1 inv) in
  calculate_totals app today db1 inv1.

End Invoice.

(** ** Sample books *)

Module LedgerExamples.
Import Accounting.

Definition cash : ChartOfAccount :=
  {| account_id := 1; account_type := asset; is_header := false; balance := 0 |}.

Definition revenue : ChartOfAccount :=
  {| account_id := 2; account_type := income; is_header := false; balance := 0 |}.

Definition loan : ChartOfAccount :=
  {| account_id := 3; account_type := liability; is_header := false; balance := 0 |}.

Definition entry1 : JournalEntry :=
  {| entry_id := 1; status := draft; posted_by := None; posted_date := None |}.

Definition line_of (n acct : nat) (t : EntryType) (v : Q) : JournalLine :=
  {| line_id := n; journal_entry := 1; account := acct; entry_type := t;
     amount := v |}.

(** Three accounts, one draft entry, no line yet. *)
Definition empty_books : Ledger :=
  {| accounts := [cash; revenue; loan]; entries := [entry1]; lines := [] |}.

(** Debit Cash 1000, credit Revenue 1000. *)
Definition sale_books : Ledger :=
  insert_line (insert_line empty_books (line_of 1 1 debit 1000))
              (line_of 2 2 credit 1000).

(** Debit Cash 100, credit Revenue 60. *)
Definition lopsided_books : Ledger :=
  insert_line (insert_line empty_books (line_of 1 1 debit 100))
              (line_of 2 2 credit 60).

(** The sale posted by user 7 at time 100, then one more debit line written
    on the posted entry. *)
Definition posted_sale : Ledger * JournalEntry * Py.outcome :=
  post_entry sale_books entry1 7%nat 100%Z.

Definition late_line_books : Ledger :=
  insert_line (fst (fst posted_sale)) (line_of 3 1 debit 50).

(** Debits of 500 and credits of 200 on Cash and on Loan, in an entry that
    is posted. *)
Definition settled_books : Ledger :=
  {| accounts := [cash; revenue; loan];
     entries := [{| entry_id := 1; status := posted; posted_by := Some 7%nat;
                    posted_date := Some 100%Z |}];
     lines := [line_of 1 1 debit 500; line_of 2 1 credit 200;
               line_of 3 3 debit 500; line_of 4 3 credit 200] |}.

(** A debit of 500 on Cash and on Loan, in an entry that is still a draft. *)
Definition draft_books : Ledger :=
  insert_line (insert_line empty_books (line_of 1 1 debit 500))
              (line_of 2 3 debit 500).

End LedgerExamples.

(** ** Sample documents *)

Module TradeExamples.
Import Accounting.

(** VAT at 7 percent, included in the price or added to it. *)
Definition vat_inclusive : Tax := {| rate := 7 # 100; is_inclusive := true |}.
Definition vat_exclusive : Tax := {| rate := 7 # 100; is_inclusive := false |}.


(** One line of 1000 on document 1, taxed or not. *)
Definition line_1000 (tx : option Tax) : Line.t :=
  {| Line.id := 1; Line.document := 1; Line.quantity := 1;
     Line.unit_price := 1000; Line.line_total := 1000;
     Line.discount_percent := 0; Line.discount_amount := 0;
     Line.tax := tx |}.

(** Order 1 of a customer with 5 percent off, not yet totalled. *)
Definition order1 : Order.t :=
  {| Order.id := 1; Order.party := {| Order.discount_percent := 5 |};
     Order.subtotal := 0; Order.discount_amount := 0;
     Order.tax_amount := 0; Order.total_amount := 0 |}.


(** Invoice 1, due on day 9, total 1000, with the given amount paid and
    the given status. *)
Definition invoice1 (paid : Q) (st : Invoice.Status) : Invoice.t :=
  {| Invoice.id := 1; Invoice.due_date := 9%Z;
     Invoice.subtotal := 1000; Invoice.discount_amount := 0;
     Invoice.tax_amount := 0; Invoice.total_amount := 1000;
     Invoice.paid_amount := paid; Invoice.outstanding_amount := 1000 - paid;
     Invoice.status := st |}.

(** The store: invoice 1, confirmed and unpaid, its line of 1000, and the
    given payment allocations. *)
Definition invoice_store (allocs : list Invoice.Allocation) : Invoice.Store :=
  {| Invoice.invoices := [invoice1 0 Invoice.confirmed];
     Invoice.lines := [line_1000 None];
     Invoice.payment_allocations := allocs |}.

(** Payment 1 allocated to invoice 1. *)
Definition allocation1 (v : Q) : Invoice.Allocation :=
  {| Invoice.allocation_id := 1; Invoice.payment := 1; Invoice.invoice := 1;
     Invoice.amount := v |}.




End TradeExamples.

(** ** accounting/views.py: the trial balance *)

Module Reports.
Import Py Accounting.

(** One entry of [trial_balance_data]. *)
Record Row : Type := {
  row_account : ChartOfAccount;
  debit_amount : Q;
  credit_amount : Q
}.

(** [account.account_type in ['asset', 'expense']] *)
Definition debit_normal (t : AccountType) : bool :=
  match t with
  | asset | expense => true
  | liability | equity | income => false
  end.

(** [account.account_type in ['liability', 'equity', 'income']] *)
Definition credit_normal (t : AccountType) : bool :=
  match t with
  | liability | equity | income => true
  | asset | expense => false
  end.

(** The body of the loop of [trial_balance] for one account: the row it
    appends, none when the balance is 0. *)
Definition trial_balance_row (db : Ledger) (account : ChartOfAccount)
    : option Row :=
  let balance := get_balance db account in
  if negb (Qeq_bool balance 0) then
    if debit_normal (account_type account) && Qlt_bool 0 balance then
      Some {| row_account := account;
              debit_amount := Qabs balance; credit_amount := 0 |}
    else if debit_normal (account_type account) && Qlt_bool balance 0 then
      Some {| row_account := account;
              debit_amount := 0; credit_amount := Qabs balance |}
    else if credit_normal (account_type account) && Qlt_bool 0 balance then
      Some {| row_account := account;
              debit_amount := 0; credit_amount := Qabs balance |}
    else
      Some {| row_account := account;
              debit_amount := Qabs balance; credit_amount := 0 |}
  else None.

(** What the loop hands to the template. *)
Record TrialBalance : Type := {
  trial_balance_data : list Row;
  total_debit : Q;
  total_credit : Q
}.

Definition trial_balance_step (db : Ledger) (acc : TrialBalance)
    (account : ChartOfAccount) : TrialBalance :=
  match trial_balance_row db account with
  | Some row =>
      {| trial_balance_data := trial_balance_data acc ++ [row];
         total_debit := total_debit acc + debit_amount row;
         total_credit := total_credit acc + credit_amount row |}
  | None => acc
  end.

(** The loop of [trial_balance] over [accounts], the queryset of the
    active, non-header accounts of the company. *)
Definition trial_balance (db : Ledger) (accounts : list ChartOfAccount)
    : TrialBalance :=
  fold_left (trial_balance_step db) accounts
    {| trial_balance_data := []; total_debit := 0; total_credit := 0 |}.

End Reports.

(** ** Customers and suppliers: what they owe or are owed *)

Module Party.
Import Py.

(** [status__in=statuses] *)
Definition status_in (statuses : list Invoice.Status) (i : Invoice.t) : bool :=
  existsb (Invoice.Status_eqb (Invoice.status i)) statuses.

(** [Customer.get_outstanding_balance] and
    [Supplier.get_outstanding_balance]; [invoices] is
    [self.sales_invoices] (or [self.purchase_bills]). *)
Definition get_outstanding_balance (invoices : list Invoice.t) : Q :=
  or_0 (Sum (map Invoice.outstanding_amount
               (filter (status_in [Invoice.confirmed; Invoice.partial_paid])
                       invoices))).

(** [Customer.get_credit_available] *)
Definition get_credit_available (credit_limit : Q) (invoices : list Invoice.t)
    : Q :=
  let outstanding := get_outstanding_balance invoices in
  credit_limit - outstanding.

(** [total_outstanding] of the views [sales_invoice_list] and
    [purchase_bill_list]; [invoices] is the invoices (or bills) of the
    company. *)
Definition total_outstanding (invoices : list Invoice.t) : Q :=
  or_0 (Sum (map Invoice.outstanding_amount
               (filter (status_in [Invoice.confirmed; Invoice.partial_paid;
                                   Invoice.overdue])
                       invoices))).

End Party.

(** ** purchasing/models.py: receiving goods against a purchase order *)

Module Receiving.
Import Py.

(** A [PurchaseOrderLine] with its delivery-tracking columns. *)
Record POLine : Type := {
  line : Line.t;
  received_quantity : Q;
  billed_quantity : Q
}.

Record ReceiptLine : Type := {
  id : nat;
  po_line : nat;
  quantity_ordered : Q;
  quantity_received : Q;
  quantity_rejected : Q
}.

Record Store : Type := {
  orders : list Order.t;
  po_lines : list POLine;
  receipt_lines : list ReceiptLine
}.

Definition set_received_quantity (l : POLine) (v : Q) : POLine :=
  {| line := line l; received_quantity := v;
     billed_quantity := billed_quantity l |}.

(** [PurchaseOrderLine.get_pending_quantity] *)
Definition get_pending_quantity (self : POLine) : Q :=
  Line.quantity (line self) - received_quantity self.

(** [super().save()] on a purchase order line. *)
Definition upsert_po_line (rows : list POLine) (l : POLine) : list POLine :=
  if existsb (fun r => Nat.eqb (Line.id (line r)) (Line.id (line l))) rows
  then map (fun r => if Nat.eqb (Line.id (line r)) (Line.id (line l))
                     then l else r) rows
  else rows ++ [l].

(** [super().save()] on a receipt line. *)
Definition upsert_receipt_line (rows : list ReceiptLine) (l : ReceiptLine)
    : list ReceiptLine :=
  if existsb (fun r => Nat.eqb (id r) (id l)) rows
  then map (fun r => if Nat.eqb (id r) (id l) then l else r) rows
  else rows ++ [l].

(** The orders and the order lines as [PurchaseOrder.calculate_totals]
    reads them. *)
Definition order_view (db : Store) : Order.Store :=
  {| Order.orders := orders db; Order.lines := map line (po_lines db) |}.

(** [PurchaseOrderLine.save] on a line with its tracking columns; [po] is
    the object [self.po] evaluates to. *)
Definition po_line_save (db : Store) (self : POLine) (po : Order.t)
    : Store * POLine * Order.t * outcome :=
  let self' := {| line := Line.compute (line self);
                  received_quantity := received_quantity self;
                  billed_quantity := billed_quantity self |} in
  let db1 := {| orders := orders db;
                po_lines := upsert_po_line (po_lines db) self';
                receipt_lines := receipt_lines db |} in
  let '(view, po', r) := Order.calculate_totals (order_view db1) po in
  ({| orders := Order.orders view;
      po_lines := po_lines db1;
      receipt_lines := receipt_lines db1 |},
   self', po', r).

(** [po_line.purchasereceiptline_set.all()] *)
Definition receipts_of (db : Store) (l : POLine) : list ReceiptLine :=
  filter (fun r => Nat.eqb (po_line r) (Line.id (line l))) (receipt_lines db).

(** [PurchaseReceiptLine.save]; [pol] is the object [self.po_line]
    evaluates to and [po] the object [self.po_line.po] evaluates to. *)
Definition receipt_line_save (db : Store) (self : ReceiptLine) (pol : POLine)
    (po : Order.t) : Store * POLine * Order.t * outcome :=
  let db1 := {| orders := orders db;
                po_lines := po_lines db;
                receipt_lines := upsert_receipt_line (receipt_lines db) self |} in
  let pol1 := set_received_quantity pol
                (py_sum (map quantity_received (receipts_of db1 pol))) in
  po_line_save db1 pol1 po.

End Receiving.

(** * Properties *)

(** ** Sums and truthiness *)

Module PyFacts.
Import Py.

Lemma fold_left_Qplus_acc (xs : list Q) (a : Q) :
  fold_left Qplus xs a == a + fold_left Qplus xs 0.
Proof.
  revert a. induction xs as [|x xs IH]; intro a; simpl.
  - ring.
  - rewrite (IH (a + x)), (IH (0 + x)). ring.
Qed.

Lemma py_sum_cons (x : Q) (xs : list Q) : py_sum (x :: xs) == x + py_sum xs.
Proof.
  unfold py_sum. simpl. rewrite fold_left_Qplus_acc. ring.
Qed.

Lemma py_sum_app (xs ys : list Q) : py_sum (xs ++ ys) == py_sum xs + py_sum ys.
Proof.
  induction xs as [|x xs IH]; simpl.
  - unfold py_sum at 2. simpl. ring.
  - rewrite !py_sum_cons, IH. ring.
Qed.


(** [Sum(...) or 0] is the sum of the column, 0 on an empty queryset. *)
Lemma or_0_Sum (xs : list Q) : or_0 (Sum xs) == py_sum xs.
Proof.
  destruct xs as [|x xs]; simpl.
  - reflexivity.
  - destruct (Qeq_bool (py_sum (x :: xs)) 0) eqn:E.
    + apply Qeq_bool_eq in E. symmetry. exact E.
    + reflexivity.
Qed.

Lemma Qlt_bool_iff (a b : Q) : Qlt_bool a b = true <-> a < b.
Proof.
  unfold Qlt_bool. rewrite negb_true_iff. split; intro H.
  - apply Qnot_le_lt. intro L. apply Qle_bool_iff in L. congruence.
  - destruct (Qle_bool b a) eqn:E; [|reflexivity].
    apply Qle_bool_iff in E. exfalso. apply (Qlt_not_le _ _ H E).
Qed.

Lemma Qeq_bool_false_iff (a b : Q) : Qeq_bool a b = false <-> ~ a == b.
Proof.
  split.
  - intros E H. apply Qeq_eq_bool in H. congruence.
  - intro H. destruct (Qeq_bool a b) eqn:E; [|reflexivity].
    apply Qeq_bool_eq in E. contradiction.
Qed.

End PyFacts.

(** ** Rounding *)

Module RoundingFacts.
Import Py.

Lemma round_half_even_spec (x : Q) :
  Qabs (x - inject_Z (round_half_even x)) <= 1 # 2
  /\ (Qabs (x - inject_Z (round_half_even x)) == 1 # 2 ->
      Z.even (round_half_even x) = true).
Proof.
  unfold round_half_even.
  pose proof (Qfloor_le x) as Hlo. pose proof (Qlt_floor x) as Hhi.
  rewrite inject_Z_plus in Hhi. change (inject_Z 1) with 1 in Hhi.
  set (f := Qfloor x) in *.
  destruct (Qcompare (x - inject_Z f) (1 # 2)) eqn:E.
  - apply Qeq_alt in E. destruct (Z.even f) eqn:Ev.
    + rewrite Qabs_pos by lra. split; [lra | intros _; exact Ev].
    + rewrite inject_Z_plus. change (inject_Z 1) with 1.
      rewrite Qabs_neg by lra. split; [lra|]. intros _.
      change (f + 1)%Z with (Z.succ f). rewrite Z.even_succ, <- Z.negb_even, Ev.
      reflexivity.
  - apply Qlt_alt in E. rewrite Qabs_pos by lra. split; [lra|].
    intro H. lra.
  - apply Qgt_alt in E. rewrite inject_Z_plus. change (inject_Z 1) with 1.
    rewrite Qabs_neg by lra. split; [lra|]. intro H. lra.
Qed.

Lemma pow10_pos (n : nat) : 0 < pow10 n.
Proof.
  unfold pow10. change 0 with (inject_Z 0). rewrite <- Zlt_Qlt.
  apply Z.pow_pos_nonneg; lia.
Qed.

(** [round(x, n)] rounds to [n] places, ties to even. *)
Lemma py_round_spec (x : Q) (n : nat) : half_even_rounding n x (py_round x n).
Proof.
  exists (round_half_even (x * pow10 n)). split; [reflexivity|].
  apply round_half_even_spec.
Qed.

(** The policy leaves no choice: two roundings of one value are equal. *)
Lemma half_even_rounding_unique (n : nat) (x r r' : Q) :
  half_even_rounding n x r -> half_even_rounding n x r' -> r == r'.
Proof.
  intros (k & Hr & Hk & Ek) (k' & Hr' & Hk' & Ek').
  rewrite Hr, Hr'.
  assert (K : k = k'); [|rewrite K; reflexivity].
  set (y := x * pow10 n) in *.
  apply Qabs_Qle_condition in Hk. apply Qabs_Qle_condition in Hk'.
  assert (L : (k <= k' + 1)%Z).
  { rewrite Zle_Qle, inject_Z_plus. change (inject_Z 1) with 1. lra. }
  assert (U : (k' <= k + 1)%Z).
  { rewrite Zle_Qle, inject_Z_plus. change (inject_Z 1) with 1. lra. }
  destruct (Z.eq_dec k k') as [|Hne]; [assumption|exfalso].
  assert (C : (k' = k + 1 \/ k = k' + 1)%Z) by lia.
  destruct C as [C | C]; subst.
  - rewrite inject_Z_plus in *. change (inject_Z 1) with 1 in *.
    assert (A : Qabs (y - inject_Z k) == 1 # 2) by (rewrite Qabs_pos; lra).
    assert (B : Qabs (y - (inject_Z k + 1)) == 1 # 2) by (rewrite Qabs_neg; lra).
    specialize (Ek A). specialize (Ek' B).
    change (k + 1)%Z with (Z.succ k) in Ek'.
    rewrite Z.even_succ, <- Z.negb_even, Ek in Ek'. discriminate.
  - rewrite inject_Z_plus in *. change (inject_Z 1) with 1 in *.
    assert (A : Qabs (y - inject_Z k') == 1 # 2) by (rewrite Qabs_pos; lra).
    assert (B : Qabs (y - (inject_Z k' + 1)) == 1 # 2) by (rewrite Qabs_neg; lra).
    specialize (Ek B). specialize (Ek' A).
    change (k' + 1)%Z with (Z.succ k') in Ek.
    rewrite Z.even_succ, <- Z.negb_even, Ek' in Ek. discriminate.
Qed.

(** The policy at the half-cent: 0.005, 0.015, 0.025 and -0.005. *)
Lemma py_round_half_cents :
  py_round (5 # 1000) 2 == 0
  /\ py_round (15 # 1000) 2 == 2 # 100
  /\ py_round (25 # 1000) 2 == 2 # 100
  /\ py_round (- (5 # 1000)) 2 == 0
  /\ py_round (1234567 # 1000) 2 == 123457 # 100.
Proof. repeat split. Qed.

End RoundingFacts.

(** ** The ledger: balances and posting *)

Module LedgerFacts.
Import Py PyFacts Accounting.

Lemma total_of_sum (t : EntryType) (qs : list JournalLine) :
  total_of t qs
  == py_sum (map amount (filter (fun l => EntryType_eqb (entry_type l) t) qs)).
Proof. unfold total_of. apply or_0_Sum. Qed.

Lemma total_of_app (t : EntryType) (qs rs : list JournalLine) :
  total_of t (qs ++ rs) == total_of t qs + total_of t rs.
Proof.
  rewrite !total_of_sum, filter_app, map_app. apply py_sum_app.
Qed.


Lemma find_map_stable {A : Type} (p : A -> bool) (g : A -> A) (l : list A) :
  (forall r, p (g r) = p r) ->
  find p (map g l) = option_map g (find p l).
Proof.
  intro Hp. induction l as [|r l IH]; simpl.
  - reflexivity.
  - rewrite Hp. destruct (p r); [reflexivity | exact IH].
Qed.

Lemma find_account_id (db : Ledger) (k : nat) (a : ChartOfAccount) :
  find_account db k = Some a -> account_id a = k.
Proof.
  unfold find_account. intro H. apply find_some in H.
  destruct H as [_ H]. apply Nat.eqb_eq in H. exact H.
Qed.

Lemma lines_refresh_balance (db : Ledger) (l : JournalLine) :
  lines (refresh_balance db l) = lines db.
Proof.
  unfold refresh_balance. destruct (find_account db (account l)); reflexivity.
Qed.

Lemma entries_refresh_balance (db : Ledger) (l : JournalLine) :
  entries (refresh_balance db l) = entries db.
Proof.
  unfold refresh_balance. destruct (find_account db (account l)); reflexivity.
Qed.

Lemma lines_fold_refresh (ls : list JournalLine) (db : Ledger) :
  lines (fold_left refresh_balance ls db) = lines db.
Proof.
  revert db. induction ls as [|l ls IH]; intro db; simpl.
  - reflexivity.
  - rewrite IH. apply lines_refresh_balance.
Qed.

Lemma entries_fold_refresh (ls : list JournalLine) (db : Ledger) :
  entries (fold_left refresh_balance ls db) = entries db.
Proof.
  revert db. induction ls as [|l ls IH]; intro db; simpl.
  - reflexivity.
  - rewrite IH. apply entries_refresh_balance.
Qed.


(** What one turn of the loop does to the row of account [k]. *)
Lemma find_account_refresh (db : Ledger) (l : JournalLine) (k : nat) :
  find_account (refresh_balance db l) k =
  match find_account db (account l) with
  | Some a0 =>
      option_map
        (fun r => if Nat.eqb (account_id r) (account l)
                  then set_balance a0 (get_balance db a0) else r)
        (find_account db k)
  | None => find_account db k
  end.
Proof.
  unfold refresh_balance.
  destruct (find_account db (account l)) as [a0|] eqn:E; [|reflexivity].
  pose proof (find_account_id _ _ _ E) as Hid.
  unfold find_account, save_account. simpl.
  rewrite find_map_stable.
  - rewrite Hid. reflexivity.
  - intro r. rewrite Hid.
    destruct (Nat.eqb (account_id r) (account l)) eqn:Er; [|reflexivity].
    simpl. apply Nat.eqb_eq in Er. rewrite Hid, Er. reflexivity.
Qed.





Lemma EntryStatus_eqb_eq (a b : EntryStatus) : EntryStatus_eqb a b = true <-> a = b.
Proof. destruct a, b; simpl; split; intro H; congruence. Qed.

Lemma journal_lines_save_entry (db : Ledger) (e e' : JournalEntry) :
  entry_id e' = entry_id e ->
  journal_lines (save_entry db e') e' = journal_lines db e.
Proof. intro H. unfold journal_lines. simpl. rewrite H. reflexivity. Qed.

(** The entry [save_entry] wrote is the row found under its id. *)
Lemma find_save_entry (db : Ledger) (e : JournalEntry) :
  find (fun r => Nat.eqb (entry_id r) (entry_id e)) (entries (save_entry db e))
  = Some e.
Proof.
  unfold save_entry. simpl.
  destruct (existsb _ (entries db)) eqn:Ex.
  - induction (entries db) as [|r rs IH]; simpl in *; [discriminate|].
    destruct (Nat.eqb (entry_id r) (entry_id e)) eqn:Er; simpl.
    + rewrite Nat.eqb_refl. reflexivity.
    + rewrite Er. apply IH. exact Ex.
  - induction (entries db) as [|r rs IH]; simpl in *.
    + rewrite Nat.eqb_refl. reflexivity.
    + apply orb_false_iff in Ex. destruct Ex as [Er Ex].
      rewrite Er. apply IH, Ex.
Qed.

(** A successful call: what [post_entry] returns on a balanced entry that is
    not posted yet. *)
Lemma post_entry_balanced (db : Ledger) (self : JournalEntry) (user : User)
    (now : DateTime) :
  status self <> posted ->
  total_of debit (journal_lines db self) == total_of credit (journal_lines db self) ->
  let self' := {| entry_id := entry_id self; status := posted;
                  posted_by := Some user; posted_date := Some now |} in
  post_entry db self user now =
  (fold_left refresh_balance (journal_lines db self) (save_entry db self'),
   self', Returned).
Proof.
  intros Hs Hb self'. unfold post_entry.
  destruct (EntryStatus_eqb (status self) posted) eqn:E.
  - apply EntryStatus_eqb_eq in E. contradiction.
  - apply Qeq_eq_bool in Hb. rewrite Hb. simpl.
    fold self'. rewrite (journal_lines_save_entry db self self' eq_refl).
    reflexivity.
Qed.




Lemma total_of_single (t : EntryType) (l : JournalLine) :
  total_of t [l] == if EntryType_eqb (entry_type l) t then amount l else 0.
Proof.
  rewrite total_of_sum. simpl.
  destruct (EntryType_eqb (entry_type l) t); simpl.
  - rewrite py_sum_cons. unfold py_sum. simpl. ring.
  - reflexivity.
Qed.

(** What one more line on an account adds to the balance read back. *)
Lemma get_balance_insert_line (db : Ledger) (a : ChartOfAccount) (l : JournalLine) :
  get_balance (insert_line db l) a ==
  get_balance db a +
  (if Nat.eqb (account l) (account_id a) then
     match account_type a, entry_type l with
     | (asset | expense), debit => amount l
     | (asset | expense), credit => - amount l
     | _, debit => - amount l
     | _, credit => amount l
     end
   else 0).
Proof.
  unfold get_balance, journal_entries, insert_line. simpl lines.
  rewrite filter_app. simpl filter.
  destruct (Nat.eqb (account l) (account_id a)).
  - destruct (account_type a); rewrite !total_of_app, !total_of_single;
      destruct (entry_type l); simpl; ring.
  - rewrite !app_nil_r. destruct (account_type a); ring.
Qed.



End LedgerFacts.

Module LedgerClaims.
Import Py PyFacts Accounting LedgerFacts LedgerExamples.

(** C1, as stated, fails on an entry that is already posted: the sale is
    posted, a further debit line of 50 is written on it, and the entry is
    posted again.  Its debit and credit totals differ (1050 and 1000), yet
    [post_entry] raises "Entry already posted", and the entry, found in the
    store with status posted, is not a draft. *)
Lemma posted_entry_unbalanced :
  let db := late_line_books in
  let e := snd (fst posted_sale) in
  status e = posted
  /\ find (fun r => Nat.eqb (entry_id r) 1) (entries db) = Some e
  /\ total_of debit (journal_lines db e) == 1050
  /\ total_of credit (journal_lines db e) == 1000
  /\ post_entry db e 7%nat 101%Z = (db, e, Raised (ValueError EntryAlreadyPosted))
  /\ status e <> draft.
Proof.
  repeat split; try reflexivity. discriminate.
Qed.

(** C1 (amended): an entry that is already posted is rejected with "Entry
    already posted" whatever its lines; an entry that is not posted and
    whose debit and credit totals differ is rejected with a ValueError that
    carries both totals, the entry and the store being left as they were (a
    draft stays a draft); and whenever [post_entry] returns, the entry was
    not posted before, its two totals are equal, and it is posted now. *)
Theorem post_entry_balance_gate (db : Ledger) (self : JournalEntry)
    (user : User) (now : DateTime) :
  let debit_total := total_of debit (journal_lines db self) in
  let credit_total := total_of credit (journal_lines db self) in
  (status self = posted ->
   post_entry db self user now = (db, self, Raised (ValueError EntryAlreadyPosted)))
  /\ (status self <> posted -> ~ debit_total == credit_total ->
      post_entry db self user now =
      (db, self, Raised (ValueError (DebitMustEqualCredit debit_total credit_total))))
  /\ (forall db' self',
        post_entry db self user now = (db', self', Returned) ->
        status self <> posted /\ debit_total == credit_total
        /\ status self' = posted).
Proof.
  intros D C. unfold post_entry. fold D C.
  destruct (EntryStatus_eqb (status self) posted) eqn:Es.
  - apply EntryStatus_eqb_eq in Es. repeat split.
    + intro H. apply H in Es. destruct Es.
    + discriminate.
    + discriminate.
    + discriminate.
  - assert (Hs : status self <> posted).
    { intro H. apply EntryStatus_eqb_eq in H. congruence. }
    destruct (Qeq_bool D C) eqn:Eb; simpl.
    + apply Qeq_bool_eq in Eb. repeat split.
      * intro H. contradiction.
      * intros _ H. contradiction.
      * exact Hs.
      * exact Eb.
      * injection H as _ <- . reflexivity.
    + repeat split; try discriminate.
      intro H. contradiction.
Qed.

Lemma post_entry_balance_gate_witness :
  status entry1 <> posted
  /\ ~ total_of debit (journal_lines lopsided_books entry1)
       == total_of credit (journal_lines lopsided_books entry1)
  /\ post_entry lopsided_books entry1 7%nat 100%Z =
     (lopsided_books, entry1,
      Raised (ValueError
                (DebitMustEqualCredit
                   (total_of debit (journal_lines lopsided_books entry1))
                   (total_of credit (journal_lines lopsided_books entry1)))))
  /\ total_of debit (journal_lines lopsided_books entry1) == 100
  /\ total_of credit (journal_lines lopsided_books entry1) == 60.
Proof.
  assert (Hs : status entry1 <> posted) by discriminate.
  assert (Hne : ~ total_of debit (journal_lines lopsided_books entry1)
                  == total_of credit (journal_lines lopsided_books entry1)).
  { intro H. vm_compute in H. discriminate H. }
  split; [exact Hs|]. split; [exact Hne|]. split.
  - exact (proj1 (proj2 (post_entry_balance_gate lopsided_books entry1 7%nat 100%Z))
             Hs Hne).
  - split; reflexivity.
Defined.



(** The sale of the scenario, run: after posting, Cash and Revenue both
    stand at 1000, Loan at 0, and the entry is posted. *)
Lemma posted_sale_run :
  let db' := fst (fst posted_sale) in
  snd posted_sale = Returned
  /\ status (snd (fst posted_sale)) = posted
  /\ (exists c r l,
        accounts db' = [c; r; l]
        /\ balance c == 1000 /\ balance r == 1000 /\ balance l == 0).
Proof.
  split; [reflexivity|]. split; [reflexivity|].
  eexists. eexists. eexists. split; [reflexivity|]. repeat split.
Qed.

(** C3, run on books whose only entry is still a draft: the debit of 500
    written on Cash (an asset) and on Loan (a liability) is counted, and
    [get_balance] gives 500 and -500 where the claim gives 0. *)
Lemma get_balance_counts_draft_lines :
  map status (entries draft_books) = [draft]
  /\ get_balance draft_books cash == 500
  /\ get_balance draft_books loan == - (500).
Proof. repeat split. Qed.

(** The figures of the claim on posted lines: debits of 500 and credits of
    200 give 300 on an asset account and -300 on a liability account. *)
Lemma get_balance_posted_example :
  get_balance settled_books cash == 300
  /\ get_balance settled_books loan == - (300).
Proof. split; reflexivity. Qed.

(** The status of the entries is never read by [get_balance]. *)
Lemma get_balance_ignores_entries (db : Ledger) (es : list JournalEntry)
    (a : ChartOfAccount) :
  get_balance {| accounts := accounts db; entries := es; lines := lines db |} a
  = get_balance db a.
Proof. reflexivity. Qed.

(** The sign convention of [get_balance], over all the lines of the account:
    debits less credits for asset and expense accounts, credits less debits
    for the others. *)
Lemma get_balance_by_type (db : Ledger) (a : ChartOfAccount) :
  let debits :=
    py_sum (map amount (filter (fun l => EntryType_eqb (entry_type l) debit)
                               (journal_entries db a))) in
  let credits :=
    py_sum (map amount (filter (fun l => EntryType_eqb (entry_type l) credit)
                               (journal_entries db a))) in
  get_balance db a ==
  match account_type a with
  | asset | expense => debits - credits
  | liability | equity | income => credits - debits
  end.
Proof.
  intros debits credits. unfold get_balance.
  destruct (account_type a); rewrite !total_of_sum; reflexivity.
Qed.

End LedgerClaims.

(** ** The tax calculator *)

Module TaxFacts.
Import Py PyFacts Accounting.

(** With a rate of at least 0 the divisor [1 + rate] is never zero, and
    [calculate_tax] returns these three values. *)
Lemma calculate_tax_value (self : Tax) (amount : Q) :
  0 <= rate self ->
  let tax := if is_inclusive self
             then amount * rate self / (1 + rate self)
             else amount * rate self in
  let base := if is_inclusive self then amount - tax else amount in
  calculate_tax self amount =
  Some {| base_amount := py_round base 2;
          tax_amount := py_round tax 2;
          total_amount := py_round (base + tax) 2 |}.
Proof.
  intros Hr. unfold calculate_tax, py_div.
  destruct (is_inclusive self); [|reflexivity].
  destruct (Qeq_bool (1 + rate self) 0) eqn:E; [|reflexivity].
  apply Qeq_bool_eq in E. lra.
Qed.

End TaxFacts.

Module TaxClaims.
Import Py PyFacts RoundingFacts Accounting TaxFacts TradeExamples.

(** C9: for a rate in [0, 1] the calculator returns; the tax is
    [amount * rate / (1 + rate)] and the base [amount - tax] when the tax is
    inclusive, the base is [amount] and the tax [amount * rate] when it is
    exclusive, the total is [base + tax], and each of the three values
    returned is its value rounded to 2 decimal places, ties to even. *)
Theorem calculate_tax_rounds (self : Tax) (amount : Q) :
  0 <= rate self -> rate self <= 1 ->
  let tax := if is_inclusive self
             then amount * rate self / (1 + rate self)
             else amount * rate self in
  let base := if is_inclusive self then amount - tax else amount in
  exists calc,
    calculate_tax self amount = Some calc
    /\ half_even_rounding 2 base (base_amount calc)
    /\ half_even_rounding 2 tax (tax_amount calc)
    /\ half_even_rounding 2 (base + tax) (total_amount calc).
Proof.
  intros H0 H1 tax base. eexists. split.
  - apply calculate_tax_value, H0.
  - simpl. repeat split; apply py_round_spec.
Qed.

Lemma calculate_tax_rounds_witness :
  0 <= rate vat_inclusive
  /\ rate vat_inclusive <= 1
  /\ exists calc,
       calculate_tax vat_inclusive 107 = Some calc
       /\ half_even_rounding 2 (107 - 107 * (7 # 100) / (1 + (7 # 100)))
            (base_amount calc)
       /\ half_even_rounding 2 (107 * (7 # 100) / (1 + (7 # 100)))
            (tax_amount calc)
       /\ half_even_rounding 2
            (107 - 107 * (7 # 100) / (1 + (7 # 100))
             + 107 * (7 # 100) / (1 + (7 # 100)))
            (total_amount calc).
Proof.
  assert (H0 : 0 <= rate vat_inclusive) by (simpl; lra).
  assert (H1 : rate vat_inclusive <= 1) by (simpl; lra).
  split; [exact H0|]. split; [exact H1|].
  exact (calculate_tax_rounds vat_inclusive 107 H0 H1).
Defined.

(** The calculator run: 107 with 7 percent included splits into 100 and 7;
    100 with 7 percent added gives 7 and 107. *)
Lemma calculate_tax_examples :
  (exists c, calculate_tax vat_inclusive 107 = Some c
             /\ base_amount c == 100 /\ tax_amount c == 7
             /\ total_amount c == 107)
  /\ (exists c, calculate_tax vat_exclusive 100 = Some c
                /\ base_amount c == 100 /\ tax_amount c == 7
                /\ total_amount c == 107).
Proof.
  split; eexists; (split; [reflexivity|]); repeat split.
Qed.

(** The total is the rounded sum, not the sum of the two rounded parts: on
    0.05 at 10 percent, added, the parts come back as 0.05 and 0.00 and the
    total as 0.06. *)
Lemma calculate_tax_total_is_rounded_sum :
  exists c,
    calculate_tax {| rate := 1 # 10; is_inclusive := false |} (5 # 100) = Some c
    /\ base_amount c == 5 # 100
    /\ tax_amount c == 0
    /\ total_amount c == 6 # 100.
Proof. eexists. split; [reflexivity|]. repeat split. Qed.

(** Outside the validated range: a rate of -1 on an inclusive tax makes the
    division raise. *)
Lemma calculate_tax_rate_minus_one (amount : Q) :
  calculate_tax {| rate := - (1); is_inclusive := true |} amount = None.
Proof. reflexivity. Qed.

End TaxClaims.

(** ** Lines and document totals *)

Module TradeFacts.
Import Py PyFacts RoundingFacts.


Lemma rates_valid_tail (l : Line.t) (ls : list Line.t) :
  Line.rates_valid (l :: ls) -> Line.rates_valid ls.
Proof. intros H l' tx Hin. apply H. right. exact Hin. Qed.



(** With validated rates the tax loop runs to its end and has added the tax
    due on every line that carries a tax. *)
Lemma tax_loop_valid (ls : list Line.t) (acc : Q) :
  Line.rates_valid ls ->
  exists t, Line.tax_loop ls acc = (t, Returned) /\ t == acc + Line.taxes_due ls.
Proof.
  revert acc. induction ls as [|l ls IH]; intros acc Hv; simpl.
  - exists acc. split; [reflexivity | ring].
  - pose proof (rates_valid_tail _ _ Hv) as Hv'.
    destruct (Line.tax l) as [tx|] eqn:Et.
    + destruct (Hv l tx (or_introl eq_refl) Et) as [H0 _].
      rewrite (TaxFacts.calculate_tax_value tx (Line.line_total l) H0).
      simpl Accounting.tax_amount.
      destruct (IH (acc + Line.tax_due tx l) Hv') as (t & Ht & Hq).
      exists t. split; [exact Ht|]. rewrite Hq. ring.
    + apply IH, Hv'.
Qed.

(** The tax loop never changes how it ends when it is entered with another
    running total. *)
Lemma tax_loop_outcome (ls : list Line.t) (acc acc' : Q) :
  snd (Line.tax_loop ls acc) = snd (Line.tax_loop ls acc').
Proof.
  revert acc acc'. induction ls as [|l ls IH]; intros acc acc'; simpl.
  - reflexivity.
  - destruct (Line.tax l) as [tx|]; [|apply IH].
    destruct (Accounting.calculate_tax tx (Line.line_total l)); [apply IH|].
    reflexivity.
Qed.




(** [calculate_totals] never writes a line. *)
Lemma order_totals_lines (db : Order.Store) (o : Order.t) :
  Order.lines (fst (fst (Order.calculate_totals db o))) = Order.lines db.
Proof.
  unfold Order.calculate_totals.
  destruct (Line.tax_loop _ 0) as [t [|e]]; reflexivity.
Qed.




End TradeFacts.

(** ** Saving a line *)

Module LineClaims.
Import Py PyFacts TradeFacts TradeExamples.




End LineClaims.

(** ** Recomputing the totals of a document *)

Module TotalsFacts.
Import Py PyFacts TradeFacts.


(** The row [save(update_fields=...)] leaves for an invoice or a bill:
    subtotal, tax, total, outstanding amount and status of [self]; the
    discount amount and the paid amount of the row. *)
Lemma invoice_saved_rows (db : Invoice.Store) (self : Invoice.t) :
  Invoice.invoices
    (Invoice.save_update_fields db self
       [Invoice.f_subtotal; Invoice.f_tax_amount; Invoice.f_total_amount;
        Invoice.f_outstanding_amount; Invoice.f_status])
  = map (fun row =>
           if Nat.eqb (Invoice.id row) (Invoice.id self)
           then {| Invoice.id := Invoice.id row;
                   Invoice.due_date := Invoice.due_date row;
                   Invoice.subtotal := Invoice.subtotal self;
                   Invoice.discount_amount := Invoice.discount_amount row;
                   Invoice.tax_amount := Invoice.tax_amount self;
                   Invoice.total_amount := Invoice.total_amount self;
                   Invoice.paid_amount := Invoice.paid_amount row;
                   Invoice.outstanding_amount := Invoice.outstanding_amount self;
                   Invoice.status := Invoice.status self |}
           else row)
        (Invoice.invoices db).
Proof. reflexivity. Qed.

(** The status branch touches the status only. *)
Lemma derive_status_amounts (app : Invoice.App) (today : Invoice.Date)
    (s : Invoice.t) :
  let s' := fst (Invoice.derive_status app today s) in
  Invoice.id s' = Invoice.id s
  /\ Invoice.due_date s' = Invoice.due_date s
  /\ Invoice.subtotal s' = Invoice.subtotal s
  /\ Invoice.discount_amount s' = Invoice.discount_amount s
  /\ Invoice.tax_amount s' = Invoice.tax_amount s
  /\ Invoice.total_amount s' = Invoice.total_amount s
  /\ Invoice.paid_amount s' = Invoice.paid_amount s
  /\ Invoice.outstanding_amount s' = Invoice.outstanding_amount s.
Proof.
  unfold Invoice.derive_status.
  destruct (Qeq_bool (Invoice.paid_amount s) 0).
  - destruct (Invoice.bound app "timezone"); [|repeat split].
    destruct (Invoice.due_date s <? today)%Z; [repeat split|].
    destruct (negb (Invoice.Status_eqb (Invoice.status s) Invoice.draft));
      repeat split.
  - destruct (Qle_bool (Invoice.total_amount s) (Invoice.paid_amount s));
      repeat split.
Qed.

(** Neither module binds the name [timezone]. *)
Lemma timezone_unbound (app : Invoice.App) : Invoice.bound app "timezone" = false.
Proof. destruct app; reflexivity. Qed.

(** The status branch on a document with some amount paid. *)
Lemma derive_status_paid (app : Invoice.App) (today : Invoice.Date)
    (s : Invoice.t) :
  ~ Invoice.paid_amount s == 0 ->
  Invoice.derive_status app today s =
  (Invoice.set_status s
     (if Qle_bool (Invoice.total_amount s) (Invoice.paid_amount s)
      then Invoice.paid else Invoice.partial_paid),
   Returned).
Proof.
  intro H. apply Qeq_bool_false_iff in H. unfold Invoice.derive_status.
  rewrite H. destruct (Qle_bool _ _); reflexivity.
Qed.

(** The status branch on a document with nothing paid. *)
Lemma derive_status_unpaid (app : Invoice.App) (today : Invoice.Date)
    (s : Invoice.t) :
  Invoice.paid_amount s == 0 ->
  Invoice.derive_status app today s = (s, Raised (NameError "timezone")).
Proof.
  intro H. apply Qeq_eq_bool in H. unfold Invoice.derive_status.
  rewrite H, timezone_unbound. reflexivity.
Qed.

End TotalsFacts.

Module TotalsClaims.
Import Py PyFacts TradeFacts TotalsFacts TradeExamples.



(** C10: recomputing the totals of a document a second time, its lines
    unchanged, leaves the store, the object and the outcome exactly as the
    first call left them; subtotal, discount amount, tax amount and total
    are therefore the same after two calls as after one.  This holds for
    orders and for invoices and bills. *)
Theorem calculate_totals_idempotent :
  (forall (db : Order.Store) (self : Order.t),
     let once := Order.calculate_totals db self in
     Order.calculate_totals (fst (fst once)) (snd (fst once)) = once)
  /\
  (forall (app : Invoice.App) (today : Invoice.Date) (db : Invoice.Store)
          (self : Invoice.t),
     let once := Invoice.calculate_totals app today db self in
     Invoice.calculate_totals app today (fst (fst once)) (snd (fst once)) = once).
Proof.
  split.
  - intros db self once. unfold once, Order.calculate_totals.
    destruct (Line.tax_loop
                (Line.of_document (Order.lines db) (Order.id self)) 0)
      as [t [|e]] eqn:E; simpl; rewrite E.
    + f_equal. f_equal. unfold Order.save_update_fields. simpl. f_equal.
      rewrite map_map. apply map_ext. intro row.
      destruct (Nat.eqb (Order.id row) (Order.id self)) eqn:Er; simpl;
        rewrite Er; reflexivity.
    + reflexivity.
  - intros app today db self once.
    unfold once, Invoice.calculate_totals, Invoice.derive_status.
    rewrite !timezone_unbound.
    destruct (Line.tax_loop
                (Line.of_document (Invoice.lines db) (Invoice.id self)) 0)
      as [t [|e]] eqn:E; simpl; [|rewrite E; reflexivity].
    destruct (Qeq_bool (Invoice.paid_amount self) 0) eqn:Ep.
    + simpl. rewrite E. simpl. rewrite Ep. reflexivity.
    + destruct (Qle_bool _ (Invoice.paid_amount self)) eqn:El; simpl;
        rewrite E; simpl; rewrite Ep, El; simpl.
      * f_equal. f_equal. unfold Invoice.save_update_fields. simpl. f_equal.
        rewrite map_map. apply map_ext. intro row.
        destruct (Nat.eqb (Invoice.id row) (Invoice.id self)) eqn:Er; simpl;
          rewrite Er; reflexivity.
      * f_equal. f_equal. unfold Invoice.save_update_fields. simpl. f_equal.
        rewrite map_map. apply map_ext. intro row.
        destruct (Nat.eqb (Invoice.id row) (Invoice.id self)) eqn:Er; simpl;
          rewrite Er; reflexivity.
Qed.

End TotalsClaims.

(** ** Payments and the status of invoices and bills *)

Module PaymentFacts.
Import Py PyFacts TradeFacts TotalsFacts.



(** [save(update_fields=...)] in [calculate_totals] does not name
    [paid_amount]: the column keeps what it held, whatever is recomputed. *)
Lemma calculate_totals_keeps_paid_column (app : Invoice.App)
    (today : Invoice.Date) (db : Invoice.Store) (self : Invoice.t) :
  map Invoice.paid_amount
      (Invoice.invoices (fst (fst (Invoice.calculate_totals app today db self))))
  = map Invoice.paid_amount (Invoice.invoices db).
Proof.
  unfold Invoice.calculate_totals.
  destruct (Line.tax_loop _ 0) as [t [|e]]; [|reflexivity].
  destruct (Invoice.derive_status _ _ _) as [s [|e]]; [|reflexivity].
  cbn [fst snd]. rewrite invoice_saved_rows, map_map. apply map_ext.
  intro row. destruct (Nat.eqb _ _); reflexivity.
Qed.


End PaymentFacts.

Module PaymentClaims.
Import Py PyFacts TradeFacts TotalsFacts PaymentFacts TradeExamples.



(** C4, run on an unpaid invoice of 1000 that fell due on day 9, recomputed
    on day 10: the call raises NameError, in the sales and in the purchasing
    module alike, nothing is written, and the status stays confirmed where
    rule 1 gives overdue.  Recomputed on day 5 as a confirmed invoice (rule
    2) or as a draft, it raises in the same way. *)
Lemma unpaid_invoice_status_raises :
  let inv := invoice1 0 Invoice.confirmed in
  let late app := Invoice.calculate_totals app 10%Z (invoice_store []) inv in
  let early st :=
    Invoice.calculate_totals Invoice.sales 5%Z (invoice_store []) (invoice1 0 st) in
  Invoice.total_amount inv == 1000
  /\ Invoice.paid_amount inv == 0
  /\ (Invoice.due_date inv <? 10)%Z = true
  /\ snd (late Invoice.sales) = Raised (NameError "timezone")
  /\ Invoice.status (snd (fst (late Invoice.sales))) = Invoice.confirmed
  /\ fst (fst (late Invoice.sales)) = invoice_store []
  /\ snd (late Invoice.purchasing) = Raised (NameError "timezone")
  /\ Invoice.status (snd (fst (late Invoice.purchasing))) = Invoice.confirmed
  /\ snd (early Invoice.confirmed) = Raised (NameError "timezone")
  /\ snd (early Invoice.draft) = Raised (NameError "timezone").
Proof. repeat split. Qed.

(** Rules 3 and 4 of the status derivation, which do not look at the clock:
    with some amount paid the call returns, and the status is paid when the
    paid amount reaches the total and partial_paid otherwise; the row takes
    that status. *)
Lemma paid_invoice_status (app : Invoice.App) (today : Invoice.Date)
    (db : Invoice.Store) (self : Invoice.t) :
  ~ Invoice.paid_amount self == 0 ->
  Line.rates_valid (Line.of_document (Invoice.lines db) (Invoice.id self)) ->
  exists db' self',
    Invoice.calculate_totals app today db self = (db', self', Returned)
    /\ (Invoice.total_amount self' <= Invoice.paid_amount self ->
        Invoice.status self' = Invoice.paid)
    /\ (Invoice.paid_amount self < Invoice.total_amount self' ->
        Invoice.status self' = Invoice.partial_paid)
    /\ (forall row, In row (Invoice.invoices db') ->
          Invoice.id row = Invoice.id self ->
          Invoice.status row = Invoice.status self').
Proof.
  intros Hp Hv. unfold Invoice.calculate_totals.
  destruct (tax_loop_valid _ 0 Hv) as (t & Ht & _). rewrite Ht.
  rewrite derive_status_paid by exact Hp.
  eexists. eexists. split; [reflexivity|]. cbn [Invoice.set_amount
    Invoice.set_status Invoice.total_amount Invoice.paid_amount
    Invoice.status Invoice.subtotal Invoice.discount_amount Invoice.tax_amount].
  split; [|split].
  - intro H. apply Qle_bool_iff in H. rewrite H. reflexivity.
  - intro H. destruct (Qle_bool _ _) eqn:E; [|reflexivity].
    apply Qle_bool_iff in E. lra.
  - intros row Hin Hid. rewrite invoice_saved_rows in Hin.
    apply in_map_iff in Hin. destruct Hin as (row0 & <- & _).
    cbn [Invoice.id Invoice.set_status Invoice.set_amount] in *.
    destruct (Nat.eqb (Invoice.id row0) (Invoice.id self)) eqn:E.
    + reflexivity.
    + apply Nat.eqb_neq in E. contradiction.
Qed.

(** The same invoice of 1000 with 1000 paid becomes paid, with 400 paid
    partial_paid. *)
Lemma paid_invoice_examples :
  let run paid :=
    Invoice.calculate_totals Invoice.sales 10%Z (invoice_store [])
      (invoice1 paid Invoice.confirmed) in
  snd (run 1000) = Returned
  /\ Invoice.status (snd (fst (run 1000))) = Invoice.paid
  /\ snd (run 400) = Returned
  /\ Invoice.status (snd (fst (run 400))) = Invoice.partial_paid.
Proof. repeat split. Qed.

(** C6, run: payment 1 allocates 400 to the unpaid invoice of 1000.  The
    save returns; the object holds a paid amount of 400; the row of the
    invoice takes the outstanding amount 600 and the status partial_paid,
    but its paid amount is still 0, where the claim has 400 persisted. *)
Lemma allocation_leaves_paid_amount_unwritten :
  let run := Invoice.allocation_save Invoice.sales 5%Z (invoice_store [])
               (allocation1 400) (invoice1 0 Invoice.confirmed) in
  snd run = Returned
  /\ Invoice.payment_allocations (fst (fst run)) = [allocation1 400]
  /\ Invoice.paid_amount (snd (fst run)) == 400
  /\ Invoice.outstanding_amount (snd (fst run)) == 600
  /\ exists row,
       Invoice.invoices (fst (fst run)) = [row]
       /\ Invoice.id row = 1%nat
       /\ Invoice.paid_amount row == 0
       /\ Invoice.total_amount row == 1000
       /\ Invoice.outstanding_amount row == 600
       /\ Invoice.status row = Invoice.partial_paid.
Proof.
  repeat split. eexists. split; [reflexivity|]. repeat split.
Qed.

(** What an allocation that returns does write: on the object the
    outstanding amount is the total less the paid amount, and the row of
    the document takes that outstanding amount. *)
Lemma allocation_save_outstanding (app : Invoice.App) (today : Invoice.Date)
    (db db' : Invoice.Store) (self : Invoice.Allocation) (inv inv' : Invoice.t) :
  Invoice.allocation_save app today db self inv = (db', inv', Returned) ->
  Invoice.outstanding_amount inv'
  = Invoice.total_amount inv' - Invoice.paid_amount inv'
  /\ forall row, In row (Invoice.invoices db') ->
       Invoice.id row = Invoice.id inv ->
       Invoice.outstanding_amount row = Invoice.outstanding_amount inv'.
Proof.
  unfold Invoice.allocation_save, Invoice.calculate_totals.
  destruct (Line.tax_loop _ 0) as [t [|e]]; [|discriminate].
  match goal with
  | |- context [Invoice.derive_status app today ?s] =>
      pose proof (derive_status_amounts app today s) as Ha;
      destruct (Invoice.derive_status app today s) as [s5 [|e]]
  end; [|discriminate].
  simpl in Ha. destruct Ha as (Hid & _ & _ & _ & _ & Htot & Hpaid & Hout).
  intro H. injection H as <- <-. split.
  - rewrite Hout, Htot, Hpaid. reflexivity.
  - intros row Hin Hrow. rewrite invoice_saved_rows in Hin.
    apply in_map_iff in Hin. destruct Hin as (row0 & <- & _).
    destruct (Nat.eqb (Invoice.id row0) (Invoice.id s5)) eqn:E.
    + reflexivity.
    + apply Nat.eqb_neq in E. rewrite Hid in E. simpl in *. contradiction.
Qed.

(** No allocation ever changes the paid amount of a row. *)
Lemma allocation_save_keeps_paid_column (app : Invoice.App)
    (today : Invoice.Date) (db : Invoice.Store) (self : Invoice.Allocation)
    (inv : Invoice.t) :
  map Invoice.paid_amount
      (Invoice.invoices (fst (fst (Invoice.allocation_save app today db self inv))))
  = map Invoice.paid_amount (Invoice.invoices db).
Proof.
  unfold Invoice.allocation_save.
  rewrite calculate_totals_keeps_paid_column. reflexivity.
Qed.

End PaymentClaims.

(** * Further properties of the code *)

(** ** Posting, once more *)

Module LedgerExtras.
Import Py PyFacts Accounting LedgerFacts LedgerExamples.

(** A loop over lines that do not point to account [k] leaves its row as it
    was. *)
Lemma fold_refresh_other_account (ls : list JournalLine) (db : Ledger) (k : nat) :
  (forall l, In l ls -> account l <> k) ->
  find_account (fold_left refresh_balance ls db) k = find_account db k.
Proof.
  revert db. induction ls as [|l ls IH]; intros db Hk; simpl.
  - reflexivity.
  - rewrite IH by (intros l' Hl'; apply Hk; right; exact Hl').
    rewrite find_account_refresh.
    destruct (find_account db (account l)) as [a0|]; [|reflexivity].
    destruct (find_account db k) as [r|] eqn:Er; [|reflexivity].
    simpl. pose proof (find_account_id _ _ _ Er) as Hr.
    destruct (Nat.eqb (account_id r) (account l)) eqn:E; [|reflexivity].
    apply Nat.eqb_eq in E. exfalso. apply (Hk l (or_introl eq_refl)).
    congruence.
Qed.

Lemma account_ids_refresh (db : Ledger) (l : JournalLine) :
  map account_id (accounts (refresh_balance db l)) = map account_id (accounts db).
Proof.
  unfold refresh_balance.
  destruct (find_account db (account l)) as [a0|] eqn:E; [|reflexivity].
  pose proof (find_account_id _ _ _ E) as Hid.
  simpl. rewrite map_map. apply map_ext. intro r.
  destruct (Nat.eqb (account_id r) (account_id a0)) eqn:Er; [|reflexivity].
  apply Nat.eqb_eq in Er. simpl. congruence.
Qed.

Lemma account_ids_fold_refresh (ls : list JournalLine) (db : Ledger) :
  map account_id (accounts (fold_left refresh_balance ls db))
  = map account_id (accounts db).
Proof.
  revert db. induction ls as [|l ls IH]; intro db; simpl.
  - reflexivity.
  - rewrite IH. apply account_ids_refresh.
Qed.

Lemma save_entry_keeps_others (db : Ledger) (e e0 : JournalEntry) :
  In e0 (entries db) -> entry_id e0 <> entry_id e ->
  In e0 (entries (save_entry db e)).
Proof.
  intros Hin Hne. unfold save_entry. simpl.
  destruct (existsb _ (entries db)).
  - apply in_map_iff. exists e0. split; [|exact Hin].
    destruct (Nat.eqb (entry_id e0) (entry_id e)) eqn:E; [|reflexivity].
    apply Nat.eqb_eq in E. contradiction.
  - apply in_or_app. left. exact Hin.
Qed.

(** The three ways [post_entry] can end. *)
Lemma post_entry_cases (db : Ledger) (self : JournalEntry) (user : User)
    (now : DateTime) :
  post_entry db self user now = (db, self, Raised (ValueError EntryAlreadyPosted))
  \/ post_entry db self user now =
     (db, self,
      Raised (ValueError
                (DebitMustEqualCredit (total_of debit (journal_lines db self))
                                      (total_of credit (journal_lines db self)))))
  \/ (status self <> posted /\
      let self' := {| entry_id := entry_id self; status := posted;
                      posted_by := Some user; posted_date := Some now |} in
      post_entry db self user now =
      (fold_left refresh_balance (journal_lines db self) (save_entry db self'),
       self', Returned)).
Proof.
  destruct (EntryStatus_eqb (status self) posted) eqn:Es.
  - left. unfold post_entry. rewrite Es. reflexivity.
  - assert (Hs : status self <> posted).
    { intro H. apply EntryStatus_eqb_eq in H. congruence. }
    destruct (Qeq_bool (total_of debit (journal_lines db self))
                       (total_of credit (journal_lines db self))) eqn:Eb.
    + right. right. split; [exact Hs|].
      apply post_entry_balanced; [exact Hs | apply Qeq_bool_eq; exact Eb].
    + right. left. unfold post_entry. rewrite Es, Eb. reflexivity.
Qed.

(** X1: an entry that [post_entry] has posted cannot be posted again: a
    second call, on the object or on the row the store now holds, raises
    "Entry already posted" and changes nothing. *)
Theorem post_entry_twice (db db' : Ledger) (self self' : JournalEntry)
    (user user2 : User) (now now2 : DateTime) :
  post_entry db self user now = (db', self', Returned) ->
  find (fun r => Nat.eqb (entry_id r) (entry_id self)) (entries db') = Some self'
  /\ post_entry db' self' user2 now2
     = (db', self', Raised (ValueError EntryAlreadyPosted)).
Proof.
  intro H.
  destruct (post_entry_cases db self user now) as [E | [E | [_ E]]];
    rewrite E in H; try discriminate H.
  injection H as <- <-. split.
  - rewrite entries_fold_refresh.
    exact (find_save_entry db
             {| entry_id := entry_id self; status := posted;
                posted_by := Some user; posted_date := Some now |}).
  - reflexivity.
Qed.

Lemma post_entry_twice_witness :
  post_entry sale_books entry1 7%nat 100%Z = posted_sale
  /\ snd posted_sale = Returned
  /\ post_entry (fst (fst posted_sale)) (snd (fst posted_sale)) 8%nat 200%Z
     = (fst (fst posted_sale), snd (fst posted_sale),
        Raised (ValueError EntryAlreadyPosted)).
Proof.
  split; [reflexivity|]. split; [reflexivity|].
  apply (post_entry_twice sale_books (fst (fst posted_sale)) entry1
           (snd (fst posted_sale)) 7%nat 8%nat 100%Z 200%Z).
  reflexivity.
Defined.

(** X2: what [post_entry] never touches, however it ends: the journal
    lines, the ids of the account rows, the row of every account that no
    line of the entry points to, and every other entry. *)
Theorem post_entry_frame (db : Ledger) (self : JournalEntry) (user : User)
    (now : DateTime) :
  let db' := fst (fst (post_entry db self user now)) in
  lines db' = lines db
  /\ map account_id (accounts db') = map account_id (accounts db)
  /\ (forall k,
        (forall l, In l (journal_lines db self) -> account l <> k) ->
        find_account db' k = find_account db k)
  /\ (forall e, In e (entries db) -> entry_id e <> entry_id self ->
        In e (entries db')).
Proof.
  destruct (post_entry_cases db self user now) as [E | [E | [_ E]]];
    rewrite E; simpl.
  - repeat split; auto.
  - repeat split; auto.
  - split; [rewrite lines_fold_refresh; reflexivity|].
    split; [rewrite account_ids_fold_refresh; reflexivity|]. split.
    + intros k Hk. rewrite fold_refresh_other_account by exact Hk. reflexivity.
    + intros e Hin Hne. rewrite entries_fold_refresh.
      apply (save_entry_keeps_others db _ e Hin). exact Hne.
Qed.

(** X3: an entry without any journal line passes the balance check (both
    totals are 0): it is posted, and no account row changes. *)
Theorem post_entry_without_lines (db : Ledger) (self : JournalEntry)
    (user : User) (now : DateTime) :
  status self <> posted ->
  journal_lines db self = [] ->
  exists db' self',
    post_entry db self user now = (db', self', Returned)
    /\ status self' = posted
    /\ accounts db' = accounts db
    /\ lines db' = lines db.
Proof.
  intros Hs H0.
  destruct (post_entry_cases db self user now) as [E | [E | [_ E]]].
  - exfalso. unfold post_entry in E.
    destruct (EntryStatus_eqb (status self) posted) eqn:Es.
    + apply EntryStatus_eqb_eq in Es. contradiction.
    + rewrite H0 in E. simpl in E. discriminate E.
  - exfalso. unfold post_entry in E.
    destruct (EntryStatus_eqb (status self) posted) eqn:Es.
    + discriminate E.
    + rewrite H0 in E. simpl in E. discriminate E.
  - rewrite H0 in E. simpl in E. eexists. eexists.
    split; [exact E|]. repeat split.
Qed.

Lemma post_entry_without_lines_witness :
  status entry1 <> posted
  /\ journal_lines empty_books entry1 = []
  /\ exists db' self',
       post_entry empty_books entry1 7%nat 100%Z = (db', self', Returned)
       /\ status self' = posted
       /\ accounts db' = accounts empty_books
       /\ lines db' = lines empty_books.
Proof.
  assert (Hs : status entry1 <> posted) by discriminate.
  split; [exact Hs|]. split; [reflexivity|].
  exact (post_entry_without_lines empty_books entry1 7%nat 100%Z Hs eq_refl).
Defined.

(** X4: writing one more journal line, whatever the status of its entry,
    moves the balance [get_balance] reads back for the account of the line
    by its amount (up for a debit on an asset or expense account and for a
    credit on the others, down otherwise), and moves no other balance. *)
Theorem journal_line_moves_one_balance (db : Ledger) (l : JournalLine)
    (a : ChartOfAccount) :
  (account l <> account_id a ->
   get_balance (insert_line db l) a == get_balance db a)
  /\ (account l = account_id a ->
      get_balance (insert_line db l) a ==
      get_balance db a +
      (if Bool.eqb (Reports.debit_normal (account_type a))
                   (EntryType_eqb (entry_type l) debit)
       then amount l else - amount l)).
Proof.
  pose proof (get_balance_insert_line db a l) as H. split; intro Hk.
  - apply Nat.eqb_neq in Hk. rewrite Hk in H. rewrite H. ring.
  - apply Nat.eqb_eq in Hk. rewrite Hk in H. rewrite H.
    destruct (account_type a), (entry_type l); reflexivity.
Qed.

Lemma journal_line_moves_one_balance_witness :
  get_balance (insert_line sale_books (line_of 3 1 credit 250)) cash == 750
  /\ get_balance (insert_line sale_books (line_of 3 1 credit 250)) revenue
     == 1000.
Proof.
  split.
  - rewrite (proj2 (journal_line_moves_one_balance sale_books
                      (line_of 3 1 credit 250) cash) eq_refl).
    reflexivity.
  - rewrite (proj1 (journal_line_moves_one_balance sale_books
                      (line_of 3 1 credit 250) revenue)).
    + reflexivity.
    + discriminate.
Defined.

End LedgerExtras.

(** ** The trial balance *)

Module ReportExtras.
Import Py PyFacts Accounting LedgerFacts LedgerExamples Reports.

(** Debits less credits over a list of journal lines. *)
Lemma total_of_cons (t : EntryType) (l : JournalLine) (ls : list JournalLine) :
  total_of t (l :: ls) ==
  (if EntryType_eqb (entry_type l) t then amount l else 0) + total_of t ls.
Proof.
  change (l :: ls) with ([l] ++ ls).
  rewrite total_of_app, total_of_single. reflexivity.
Qed.

Lemma py_sum_map_plus {A : Type} (f g : A -> Q) (l : list A) :
  py_sum (map (fun a => f a + g a) l) == py_sum (map f l) + py_sum (map g l).
Proof.
  induction l as [|a l IH]; simpl.
  - reflexivity.
  - rewrite !py_sum_cons, IH. ring.
Qed.

Lemma py_sum_map_ext {A : Type} (f g : A -> Q) (l : list A) :
  (forall a, f a == g a) -> py_sum (map f l) == py_sum (map g l).
Proof.
  intro H. induction l as [|a l IH]; simpl.
  - reflexivity.
  - rewrite !py_sum_cons, IH, H. reflexivity.
Qed.

(** A sum in which no account has the id looked for. *)
Lemma py_sum_no_match (accts : list ChartOfAccount) (k : nat) (s : Q) :
  ~ In k (map account_id accts) ->
  py_sum (map (fun a => if Nat.eqb k (account_id a) then s else 0) accts) == 0.
Proof.
  induction accts as [|a accts IH]; intro Hn; simpl.
  - reflexivity.
  - rewrite py_sum_cons.
    destruct (Nat.eqb k (account_id a)) eqn:E.
    + apply Nat.eqb_eq in E. exfalso. apply Hn. left. symmetry. exact E.
    + rewrite IH; [ring|]. intro H. apply Hn. right. exact H.
Qed.

(** A sum in which exactly one account has the id looked for. *)
Lemma py_sum_one_match (accts : list ChartOfAccount) (k : nat) (s : Q) :
  NoDup (map account_id accts) ->
  In k (map account_id accts) ->
  py_sum (map (fun a => if Nat.eqb k (account_id a) then s else 0) accts) == s.
Proof.
  induction accts as [|a accts IH]; intros Hnd Hin; simpl in *.
  - destruct Hin.
  - rewrite py_sum_cons. inversion Hnd as [|x xs Hx Hxs]; subst.
    destruct (Nat.eqb k (account_id a)) eqn:E.
    + apply Nat.eqb_eq in E. subst k.
      rewrite py_sum_no_match by exact Hx. ring.
    + destruct Hin as [Hin | Hin].
      * apply Nat.eqb_neq in E. exfalso. apply E. symmetry. exact Hin.
      * rewrite IH by assumption. ring.
Qed.

(** Debits less credits of the lines of one account, among [ls]. *)
Lemma account_net_cons (l : JournalLine) (ls : list JournalLine)
    (a : ChartOfAccount) :
  let of_a := filter (fun l => Nat.eqb (account l) (account_id a)) in
  total_of debit (of_a (l :: ls)) - total_of credit (of_a (l :: ls)) ==
  (total_of debit (of_a ls) - total_of credit (of_a ls))
  + (if Nat.eqb (account l) (account_id a)
     then (if EntryType_eqb (entry_type l) debit then amount l else - amount l)
     else 0).
Proof.
  intro of_a. unfold of_a. simpl.
  destruct (Nat.eqb (account l) (account_id a)).
  - rewrite !total_of_cons. destruct (entry_type l); simpl; ring.
  - ring.
Qed.

(** Summed over accounts with distinct ids that cover every line, debits
    less credits per account add up to debits less credits overall. *)
Lemma account_nets_add_up (accts : list ChartOfAccount) (ls : list JournalLine) :
  NoDup (map account_id accts) ->
  (forall l, In l ls -> In (account l) (map account_id accts)) ->
  py_sum (map (fun a =>
                 total_of debit
                   (filter (fun l => Nat.eqb (account l) (account_id a)) ls)
                 - total_of credit
                     (filter (fun l => Nat.eqb (account l) (account_id a)) ls))
              accts)
  == total_of debit ls - total_of credit ls.
Proof.
  intros Hnd. induction ls as [|l ls IH]; intro Hcov.
  - simpl. rewrite (py_sum_map_ext _ (fun _ => 0)).
    + clear. induction accts as [|a accts IHa]; simpl; [reflexivity|].
      rewrite py_sum_cons, IHa. ring.
    + intro a. reflexivity.
  - rewrite (py_sum_map_ext _ _ accts (account_net_cons l ls)).
    rewrite py_sum_map_plus, IH
      by (intros l' Hl'; apply Hcov; right; exact Hl').
    rewrite py_sum_one_match;
      [|exact Hnd | apply Hcov; left; reflexivity].
    rewrite !total_of_cons. destruct (entry_type l); simpl; ring.
Qed.

(** The two columns of a row, against the debits and credits of the
    account. *)
Lemma trial_balance_row_net (db : Ledger) (a : ChartOfAccount) :
  let net := total_of debit (journal_entries db a)
             - total_of credit (journal_entries db a) in
  match trial_balance_row db a with
  | Some row =>
      row_account row = a
      /\ 0 <= debit_amount row /\ 0 <= credit_amount row
      /\ (debit_amount row == 0 \/ credit_amount row == 0)
      /\ ~ net == 0
      /\ debit_amount row - credit_amount row == net
  | None => net == 0
  end.
Proof.
  intro net. unfold trial_balance_row, get_balance.
  set (D := total_of debit (journal_entries db a)) in *.
  set (C := total_of credit (journal_entries db a)) in *.
  assert (Hpos : forall x, Qlt_bool 0 x = true -> 0 < x)
    by (intros x H; apply Qlt_bool_iff; exact H).
  assert (Hneg : forall x, Qlt_bool x 0 = true -> x < 0)
    by (intros x H; apply Qlt_bool_iff; exact H).
  assert (Hnpos : forall x, Qlt_bool 0 x = false -> x <= 0).
  { intros x H. apply Qnot_lt_le. intro L. apply Qlt_bool_iff in L. congruence. }
  assert (Hnneg : forall x, Qlt_bool x 0 = false -> 0 <= x).
  { intros x H. apply Qnot_lt_le. intro L. apply Qlt_bool_iff in L. congruence. }
  unfold net.
  destruct (account_type a); cbn [debit_normal credit_normal andb negb];
    match goal with
    | |- context [Qeq_bool ?b 0] =>
        destruct (Qeq_bool b 0) eqn:Ez; cbn [negb];
        [apply Qeq_bool_eq in Ez; lra
        |apply Qeq_bool_false_iff in Ez]
    end;
    repeat match goal with
    | |- context [Qlt_bool ?x ?y] =>
        let E := fresh "E" in
        destruct (Qlt_bool x y) eqn:E;
        [first [apply Hpos in E | apply Hneg in E]
        |first [apply Hnpos in E | apply Hnneg in E]]
    end;
    cbn [debit_amount credit_amount row_account];
    (split; [reflexivity|]);
    try (rewrite Qabs_pos by lra);
    try (rewrite Qabs_neg by lra);
    repeat split; try lra;
    try (left; lra); try (right; lra).
Qed.
Lemma trial_balance_row_listed (db : Ledger) (a : ChartOfAccount) :
  match trial_balance_row db a with
  | Some row => row_account row = a /\ Qeq_bool (get_balance db a) 0 = false
  | None => Qeq_bool (get_balance db a) 0 = true
  end.
Proof.
  unfold trial_balance_row.
  destruct (Qeq_bool (get_balance db a) 0); cbn [negb]; [reflexivity|].
  destruct (debit_normal _ && Qlt_bool 0 _); [split; reflexivity|].
  destruct (debit_normal _ && Qlt_bool _ 0); [split; reflexivity|].
  destruct (credit_normal _ && Qlt_bool 0 _); split; reflexivity.
Qed.

(** The loop, one account further. *)
Lemma trial_balance_fold (db : Ledger) (accts : list ChartOfAccount)
    (acc : TrialBalance) :
  let tb := fold_left (trial_balance_step db) accts acc in
  map row_account (trial_balance_data tb)
  = map row_account (trial_balance_data acc)
    ++ filter (fun a => negb (Qeq_bool (get_balance db a) 0)) accts
  /\ (forall row, In row (trial_balance_data tb) ->
        In row (trial_balance_data acc)
        \/ exists a, In a accts /\ trial_balance_row db a = Some row)
  /\ total_debit tb - total_credit tb ==
     (total_debit acc - total_credit acc)
     + py_sum (map (fun a => total_of debit (journal_entries db a)
                             - total_of credit (journal_entries db a)) accts).
Proof.
  revert acc. induction accts as [|a accts IH]; intro acc; simpl.
  - split; [rewrite app_nil_r; reflexivity|]. split; [intros; left; assumption|].
    unfold py_sum. simpl. ring.
  - destruct (IH (trial_balance_step db acc a)) as (H1 & H2 & H3).
    pose proof (trial_balance_row_listed db a) as Hl.
    pose proof (trial_balance_row_net db a) as Hn.
    destruct (trial_balance_row db a) as [row|] eqn:Erow.
    + assert (Hstep : trial_balance_step db acc a =
                      {| trial_balance_data := trial_balance_data acc ++ [row];
                         total_debit := total_debit acc + debit_amount row;
                         total_credit := total_credit acc + credit_amount row |})
        by (unfold trial_balance_step; rewrite Erow; reflexivity).
      rewrite Hstep in *.
      cbn [trial_balance_data total_debit total_credit] in H1, H2, H3.
      destruct Hl as [Hr Hz]. rewrite Hz. cbn [negb].
      cbv zeta in Hn. destruct Hn as (_ & _ & _ & _ & _ & Hd).
      split; [|split].
      * rewrite H1, map_app, <- app_assoc. simpl. rewrite Hr. reflexivity.
      * intros r Hin. destruct (H2 r Hin) as [Ha | (a' & Ha' & Hrow)].
        -- apply in_app_or in Ha. destruct Ha as [Ha | [<- | []]].
           ++ left. exact Ha.
           ++ right. exists a. split; [left; reflexivity | exact Erow].
        -- right. exists a'. split; [right; exact Ha' | exact Hrow].
      * rewrite H3, py_sum_cons, <- Hd. ring.
    + assert (Hstep : trial_balance_step db acc a = acc)
        by (unfold trial_balance_step; rewrite Erow; reflexivity).
      rewrite Hstep in *. rewrite Hl. cbn [negb].
      cbv zeta in Hn.
      split; [exact H1|]. split.
      * intros r Hin. destruct (H2 r Hin) as [Ha | (a' & Ha' & Hrow)].
        -- left. exact Ha.
        -- right. exists a'. split; [right; exact Ha' | exact Hrow].
      * rewrite H3, py_sum_cons, Hn. ring.
Qed.

(** X5: the trial balance lists, in the order of the accounts, exactly the
    accounts whose balance is not 0; on each row both columns are
    non-negative, one of them is 0 and the other is not, and the debit
    column less the credit column is the debits less the credits of the
    journal lines of the account. *)
Theorem trial_balance_rows (db : Ledger) (accounts : list ChartOfAccount) :
  let tb := trial_balance db accounts in
  map row_account (trial_balance_data tb)
  = filter (fun a => negb (Qeq_bool (get_balance db a) 0)) accounts
  /\ forall row, In row (trial_balance_data tb) ->
       0 <= debit_amount row
       /\ 0 <= credit_amount row
       /\ (debit_amount row == 0 \/ credit_amount row == 0)
       /\ ~ debit_amount row == credit_amount row
       /\ debit_amount row - credit_amount row ==
          total_of debit (journal_entries db (row_account row))
          - total_of credit (journal_entries db (row_account row)).
Proof.
  intro tb. unfold tb, trial_balance.
  destruct (trial_balance_fold db accounts
              {| trial_balance_data := []; total_debit := 0; total_credit := 0 |})
    as (H1 & H2 & _).
  split; [exact H1|].
  intros row Hin. destruct (H2 row Hin) as [[] | (a & _ & Hrow)].
  pose proof (trial_balance_row_net db a) as Hn. rewrite Hrow in Hn.
  simpl in Hn. destruct Hn as (-> & Hd & Hc & Hz & Hnz & Hnet).
  split; [exact Hd|]. split; [exact Hc|]. split; [exact Hz|].
  split; [|exact Hnet].
  intro He. apply Hnz. rewrite <- Hnet, He. ring.
Qed.

(** X6: when the accounts listed have distinct ids and every journal line
    points to one of them, the totals of the trial balance differ by the
    debits less the credits of all the journal lines; so the trial balance
    balances whenever the journal lines do. *)
Theorem trial_balance_totals (db : Ledger) (accounts : list ChartOfAccount) :
  NoDup (map account_id accounts) ->
  (forall l, In l (lines db) -> In (account l) (map account_id accounts)) ->
  let tb := trial_balance db accounts in
  total_debit tb - total_credit tb
  == total_of debit (lines db) - total_of credit (lines db)
  /\ (total_of debit (lines db) == total_of credit (lines db) ->
      total_debit tb == total_credit tb).
Proof.
  intros Hnd Hcov tb.
  assert (H : total_debit tb - total_credit tb
              == total_of debit (lines db) - total_of credit (lines db)).
  { unfold tb, trial_balance.
    destruct (trial_balance_fold db accounts
                {| trial_balance_data := []; total_debit := 0;
                   total_credit := 0 |}) as (_ & _ & H3).
    rewrite H3. simpl total_debit. simpl total_credit.
    unfold journal_entries.
    rewrite (account_nets_add_up accounts (lines db) Hnd Hcov). ring. }
  split; [exact H|]. intro Hb. lra.
Qed.

Lemma trial_balance_totals_witness :
  let db := fst (fst posted_sale) in
  NoDup (map account_id (accounts db))
  /\ total_debit (trial_balance db (accounts db)) == 1000
  /\ total_credit (trial_balance db (accounts db)) == 1000
  /\ total_debit (trial_balance db (accounts db))
     == total_credit (trial_balance db (accounts db)).
Proof.
  set (db := fst (fst posted_sale)).
  assert (Hnd : NoDup (map account_id (accounts db))).
  { vm_compute. repeat constructor; simpl; intuition discriminate. }
  assert (Hcov : forall l, In l (lines db) ->
                           In (account l) (map account_id (accounts db))).
  { intros l Hl. vm_compute in Hl.
    destruct Hl as [<- | [<- | []]]; vm_compute; auto. }
  split; [exact Hnd|]. split; [reflexivity|]. split; [reflexivity|].
  apply (proj2 (trial_balance_totals db (accounts db) Hnd Hcov)).
  reflexivity.
Defined.

End ReportExtras.

(** ** The tax calculator, further *)

Module TaxExtras.
Import Py PyFacts RoundingFacts Accounting TaxFacts TradeExamples.

Lemma round_half_even_comp (x y : Q) :
  x == y -> round_half_even x = round_half_even y.
Proof.
  intro H. unfold round_half_even.
  rewrite (Qfloor_comp x y H).
  assert (C : (x - inject_Z (Qfloor y) ?= 1 # 2)
              = (y - inject_Z (Qfloor y) ?= 1 # 2))
    by (rewrite H; reflexivity).
  rewrite C. reflexivity.
Qed.

(** Equal values round to equal values. *)
Lemma py_round_comp (x y : Q) (n : nat) : x == y -> py_round x n == py_round y n.
Proof.
  intro H. unfold py_round.
  rewrite (round_half_even_comp (x * pow10 n) (y * pow10 n)); [reflexivity|].
  rewrite H. reflexivity.
Qed.

Lemma round_half_even_Z (k : Z) : round_half_even (inject_Z k) = k.
Proof.
  unfold round_half_even. rewrite Qfloor_Z.
  assert (E : (inject_Z k - inject_Z k ?= 1 # 2) = Lt).
  { apply Qlt_alt. unfold Qminus. rewrite Qplus_opp_r. reflexivity. }
  rewrite E. reflexivity.
Qed.

(** A whole number of cents is left as it is. *)
Lemma py_round_cents (x : Q) (k : Z) :
  x == inject_Z k / 100 -> py_round x 2 == x.
Proof.
  intro H. unfold py_round.
  rewrite (round_half_even_comp (x * pow10 2) (inject_Z k)).
  - rewrite round_half_even_Z, H. reflexivity.
  - rewrite H. change (pow10 2) with 100. field.
Qed.

(** Rounding keeps the order. *)
Lemma round_half_even_mono (x y : Q) :
  x <= y -> (round_half_even x <= round_half_even y)%Z.
Proof.
  intro Hxy.
  destruct (round_half_even_spec x) as [Hx Ex].
  destruct (round_half_even_spec y) as [Hy Ey].
  set (kx := round_half_even x) in *. set (ky := round_half_even y) in *.
  apply Qabs_Qle_condition in Hx. apply Qabs_Qle_condition in Hy.
  destruct (Z_le_gt_dec kx ky) as [|Hgt]; [assumption|exfalso].
  assert (H1 : (ky + 1 <= kx)%Z) by lia.
  rewrite Zle_Qle, inject_Z_plus in H1. change (inject_Z 1) with 1 in H1.
  assert (K : (kx = ky + 1)%Z).
  { apply Z.le_antisymm; [|lia].
    rewrite Zle_Qle, inject_Z_plus. change (inject_Z 1) with 1. lra. }
  assert (Ax : Qabs (x - inject_Z kx) == 1 # 2) by (rewrite Qabs_neg; lra).
  assert (Ay : Qabs (y - inject_Z ky) == 1 # 2) by (rewrite Qabs_pos; lra).
  specialize (Ex Ax). specialize (Ey Ay). rewrite K in Ex.
  change (ky + 1)%Z with (Z.succ ky) in Ex.
  rewrite Z.even_succ, <- Z.negb_even, Ey in Ex. discriminate.
Qed.

Lemma py_round_mono (x y : Q) (n : nat) :
  x <= y -> py_round x n <= py_round y n.
Proof.
  intro H. unfold py_round. pose proof (pow10_pos n) as Hp.
  apply Qmult_le_compat_r; [|apply Qlt_le_weak, Qinv_lt_0_compat, Hp].
  rewrite <- Zle_Qle. apply round_half_even_mono.
  apply Qmult_le_compat_r; [exact H | apply Qlt_le_weak, Hp].
Qed.

Lemma py_round_0 (n : nat) : py_round 0 n == 0.
Proof.
  unfold py_round.
  rewrite (round_half_even_comp (0 * pow10 n) (inject_Z 0)) by ring.
  rewrite round_half_even_Z. pose proof (pow10_pos n). field. lra.
Qed.

(** X7: for a rate of at least 0 and an amount that is a whole number of
    cents, the calculator gives the amount back: as total when the tax is
    included in the amount, as base when the tax is added to it. *)
Theorem calculate_tax_keeps_amount (self : Tax) (amount : Q) (cents : Z) :
  0 <= rate self ->
  amount == inject_Z cents / 100 ->
  exists calc,
    calculate_tax self amount = Some calc
    /\ (is_inclusive self = true -> total_amount calc == amount)
    /\ (is_inclusive self = false -> base_amount calc == amount).
Proof.
  intros Hr Ha. eexists. split; [apply calculate_tax_value, Hr|].
  simpl. split; intro Hi; rewrite Hi.
  - rewrite (py_round_comp _ amount) by ring.
    apply (py_round_cents amount cents Ha).
  - apply (py_round_cents amount cents Ha).
Qed.

Lemma calculate_tax_keeps_amount_witness :
  0 <= rate vat_inclusive
  /\ (1999 # 100) == inject_Z 1999 / 100
  /\ exists calc,
       calculate_tax vat_inclusive (1999 # 100) = Some calc
       /\ total_amount calc == 1999 # 100.
Proof.
  assert (Hr : 0 <= rate vat_inclusive) by (simpl; lra).
  assert (Ha : (1999 # 100) == inject_Z 1999 / 100) by reflexivity.
  split; [exact Hr|]. split; [exact Ha|].
  destruct (calculate_tax_keeps_amount vat_inclusive (1999 # 100) 1999 Hr Ha)
    as (calc & Hc & Ht & _).
  exists calc. split; [exact Hc | exact (Ht eq_refl)].
Defined.

(** X8: for an amount of at least 0 and a rate in [0, 1], the three values
    returned are ordered: 0 <= tax_amount <= base_amount <= total_amount. *)
Theorem calculate_tax_ordered (self : Tax) (amount : Q) :
  0 <= amount -> 0 <= rate self -> rate self <= 1 ->
  exists calc,
    calculate_tax self amount = Some calc
    /\ 0 <= tax_amount calc
    /\ tax_amount calc <= base_amount calc
    /\ base_amount calc <= total_amount calc.
Proof.
  intros Ha H0 H1. eexists. split; [apply calculate_tax_value, H0|].
  set (r := rate self) in *.
  assert (P0 : 0 <= amount * r) by (apply Qmult_le_0_compat; assumption).
  assert (P1 : amount * r <= amount).
  { rewrite (Qmult_comm amount r).
    setoid_replace amount with (1 * amount) at 2 by ring.
    apply Qmult_le_compat_r; assumption. }
  simpl. set (p := amount * r) in *. destruct (is_inclusive self).
  - set (t := p / (1 + r)).
    assert (T0 : 0 <= t).
    { unfold t. apply Qle_shift_div_l; lra. }
    assert (T1 : t <= amount * (1 # 2)).
    { unfold t. apply Qle_shift_div_r; [lra|].
      setoid_replace (amount * (1 # 2) * (1 + r))
        with (amount * (1 # 2) + p * (1 # 2)) by (unfold p; ring).
      clearbody p. lra. }
    clearbody t. rewrite <- (py_round_0 2) at 1.
    split; [apply py_round_mono; exact T0|].
    split; apply py_round_mono; lra.
  - clearbody p. rewrite <- (py_round_0 2) at 1.
    split; [apply py_round_mono; exact P0|].
    split; apply py_round_mono; lra.
Qed.

Lemma calculate_tax_ordered_witness :
  0 <= 107
  /\ exists calc,
       calculate_tax vat_inclusive 107 = Some calc
       /\ 0 <= tax_amount calc
       /\ tax_amount calc <= base_amount calc
       /\ base_amount calc <= total_amount calc.
Proof.
  assert (Ha : 0 <= 107) by lra.
  assert (H0 : 0 <= rate vat_inclusive) by (simpl; lra).
  assert (H1 : rate vat_inclusive <= 1) by (simpl; lra).
  split; [exact Ha|].
  exact (calculate_tax_ordered vat_inclusive 107 Ha H0 H1).
Defined.

End TaxExtras.

(** ** Saving lines, further *)

Module LineExtras.
Import Py PyFacts TradeFacts TotalsFacts TradeExamples.

(** Saving a row that was just saved changes nothing. *)
Lemma upsert_twice (rows : list Line.t) (l : Line.t) :
  Line.upsert (Line.upsert rows l) l = Line.upsert rows l.
Proof.
  unfold Line.upsert.
  destruct (existsb (fun r => Nat.eqb (Line.id r) (Line.id l)) rows) eqn:Ex.
  - assert (Ex' : existsb (fun r => Nat.eqb (Line.id r) (Line.id l))
                    (map (fun r => if Nat.eqb (Line.id r) (Line.id l)
                                   then l else r) rows) = true).
    { apply existsb_exists in Ex. destruct Ex as (r & Hin & Hr).
      apply existsb_exists. exists l. split; [|apply Nat.eqb_refl].
      apply in_map_iff. exists r. rewrite Hr. split; [reflexivity | exact Hin]. }
    rewrite Ex', map_map. apply map_ext. intro r.
    destruct (Nat.eqb (Line.id r) (Line.id l)) eqn:E.
    + rewrite Nat.eqb_refl. reflexivity.
    + rewrite E. reflexivity.
  - assert (Ex' : existsb (fun r => Nat.eqb (Line.id r) (Line.id l))
                    (rows ++ [l]) = true).
    { rewrite existsb_app. simpl. rewrite Nat.eqb_refl.
      rewrite orb_true_r. reflexivity. }
    rewrite Ex', map_app. simpl. rewrite Nat.eqb_refl. f_equal.
    rewrite <- (map_id rows) at 2. apply map_ext_in. intros r Hin.
    destruct (Nat.eqb (Line.id r) (Line.id l)) eqn:E; [|reflexivity].
    exfalso. assert (existsb (fun r => Nat.eqb (Line.id r) (Line.id l)) rows = true).
    { apply existsb_exists. exists r. split; assumption. }
    congruence.
Qed.

(** Computing the derived columns of a line twice is computing them once. *)
Lemma compute_twice (l : Line.t) : Line.compute (Line.compute l) = Line.compute l.
Proof.
  unfold Line.compute.
  destruct (Qlt_bool 0 (Line.discount_percent l)) eqn:E; simpl; rewrite E;
    reflexivity.
Qed.

(** Recomputing an order that was just recomputed changes nothing. *)
Lemma order_totals_twice (db : Order.Store) (self : Order.t) :
  Order.calculate_totals (fst (fst (Order.calculate_totals db self)))
                         (snd (fst (Order.calculate_totals db self)))
  = Order.calculate_totals db self.
Proof.
  unfold Order.calculate_totals.
  destruct (Line.tax_loop
              (Line.of_document (Order.lines db) (Order.id self)) 0)
    as [t [|e]] eqn:E; simpl; rewrite E.
  - f_equal. f_equal. unfold Order.save_update_fields. simpl. f_equal.
    rewrite map_map. apply map_ext. intro row.
    destruct (Nat.eqb (Order.id row) (Order.id self)) eqn:Er; simpl;
      rewrite Er; reflexivity.
  - reflexivity.
Qed.

Lemma order_store_eta (db : Order.Store) :
  {| Order.orders := Order.orders db; Order.lines := Order.lines db |} = db.
Proof. destruct db. reflexivity. Qed.

(** X9: saving an order line a second time, nothing edited in between,
    leaves the store, the line, the order and the outcome as the first save
    left them. *)
Theorem order_line_save_twice (db : Order.Store) (self : Line.t) (o : Order.t) :
  let once := Order.line_save db self o in
  Order.line_save (fst (fst (fst once))) (snd (fst (fst once))) (snd (fst once))
  = once.
Proof.
  intro once. unfold once, Order.line_save.
  set (db1 := {| Order.orders := Order.orders db;
                 Order.lines := Line.upsert (Order.lines db) (Line.compute self) |}).
  pose proof (order_totals_lines db1 o) as Hl.
  pose proof (order_totals_twice db1 o) as Ht.
  destruct (Order.calculate_totals db1 o) as [[db2 o'] r].
  cbn [fst snd] in *. simpl in Hl.
  rewrite compute_twice, Hl, upsert_twice, <- Hl, order_store_eta, Ht.
  reflexivity.
Qed.




End LineExtras.

(** ** When the totals of an order cannot be computed *)

Module OrderExtras.
Import Py PyFacts Accounting TradeFacts TotalsFacts PaymentFacts TradeExamples.





End OrderExtras.

(** ** Invoices, bills and their payment allocations, further *)

Module InvoiceExtras.
Import Py PyFacts Accounting TradeFacts TotalsFacts PaymentFacts TradeExamples.

(** What a call of [calculate_totals] that returns has done: some amount
    was paid, the status is derived from it, and the row is written from
    the object. *)
Lemma invoice_totals_returned (app : Invoice.App) (today : Invoice.Date)
    (db db' : Invoice.Store) (self self' : Invoice.t) :
  Invoice.calculate_totals app today db self = (db', self', Returned) ->
  ~ Invoice.paid_amount self == 0
  /\ Invoice.id self' = Invoice.id self
  /\ Invoice.paid_amount self' = Invoice.paid_amount self
  /\ Invoice.outstanding_amount self'
     = Invoice.total_amount self' - Invoice.paid_amount self'
  /\ Invoice.status self'
     = (if Qle_bool (Invoice.total_amount self') (Invoice.paid_amount self')
        then Invoice.paid else Invoice.partial_paid)
  /\ db' = Invoice.save_update_fields db self'
             [Invoice.f_subtotal; Invoice.f_tax_amount; Invoice.f_total_amount;
              Invoice.f_outstanding_amount; Invoice.f_status].
Proof.
  unfold Invoice.calculate_totals.
  destruct (Line.tax_loop _ 0) as [t [|e]]; [|discriminate].
  destruct (Qeq_bool (Invoice.paid_amount self) 0) eqn:Ep.
  - rewrite derive_status_unpaid by (apply Qeq_bool_eq; exact Ep).
    discriminate.
  - apply Qeq_bool_false_iff in Ep.
    rewrite derive_status_paid by exact Ep.
    intro H. injection H as <- <-. repeat split. exact Ep.
Qed.

(** The object [calculate_totals] hands back is the same document, with
    the paid amount it had. *)
Lemma invoice_totals_object (app : Invoice.App) (today : Invoice.Date)
    (db : Invoice.Store) (self : Invoice.t) :
  let self' := snd (fst (Invoice.calculate_totals app today db self)) in
  Invoice.id self' = Invoice.id self
  /\ Invoice.paid_amount self' = Invoice.paid_amount self.
Proof.
  unfold Invoice.calculate_totals.
  destruct (Line.tax_loop _ 0) as [t [|e]]; [|split; reflexivity].
  match goal with
  | |- context [Invoice.derive_status app today ?s] =>
      pose proof (derive_status_amounts app today s) as Ha;
      destruct (Invoice.derive_status app today s) as [s5 [|e]]
  end; simpl in Ha; destruct Ha as (Hid & _ & _ & _ & _ & _ & Hpaid & _);
    cbn [fst snd]; rewrite Hid, Hpaid; split; reflexivity.
Qed.

(** [calculate_totals] never writes a payment allocation. *)
Lemma invoice_totals_allocations (app : Invoice.App) (today : Invoice.Date)
    (db : Invoice.Store) (self : Invoice.t) :
  Invoice.payment_allocations
    (fst (fst (Invoice.calculate_totals app today db self)))
  = Invoice.payment_allocations db.
Proof.
  unfold Invoice.calculate_totals.
  destruct (Line.tax_loop _ 0) as [t [|e]]; [|reflexivity].
  destruct (Invoice.derive_status _ _ _) as [s [|e]]; reflexivity.
Qed.

(** X12: what recomputing an invoice or a bill never touches, however the
    call ends: the lines, the payment allocations, the rows of the other
    documents, and on every row the id, the due date, the discount amount
    and the paid amount. *)
Theorem invoice_totals_frame (app : Invoice.App) (today : Invoice.Date)
    (db : Invoice.Store) (self : Invoice.t) :
  let db' := fst (fst (Invoice.calculate_totals app today db self)) in
  let kept (r : Invoice.t) :=
    (Invoice.id r, Invoice.due_date r, Invoice.discount_amount r,
     Invoice.paid_amount r) in
  Invoice.lines db' = Invoice.lines db
  /\ Invoice.payment_allocations db' = Invoice.payment_allocations db
  /\ map kept (Invoice.invoices db') = map kept (Invoice.invoices db)
  /\ (forall row, In row (Invoice.invoices db) ->
        Invoice.id row <> Invoice.id self -> In row (Invoice.invoices db')).
Proof.
  intros db' kept. unfold db', Invoice.calculate_totals.
  destruct (Line.tax_loop _ 0) as [t [|e]]; [|repeat split; auto].
  match goal with
  | |- context [Invoice.derive_status app today ?s] =>
      pose proof (derive_status_amounts app today s) as Ha;
      destruct (Invoice.derive_status app today s) as [s5 [|e]]
  end; [|repeat split; auto].
  simpl in Ha. destruct Ha as (Hid & _).
  cbn [fst snd]. split; [reflexivity|]. split; [reflexivity|].
  rewrite invoice_saved_rows. split.
  - rewrite map_map. apply map_ext. intro row.
    destruct (Nat.eqb (Invoice.id row) (Invoice.id s5)); reflexivity.
  - intros row Hin Hne. apply in_map_iff. exists row. split; [|exact Hin].
    rewrite Hid. apply Nat.eqb_neq in Hne. rewrite Hne. reflexivity.
Qed.



End InvoiceExtras.

(** ** Tables updated by [save] *)

Module TableFacts.
Import Py PyFacts.

(** A column summed over the rows a predicate selects, after the row with
    one key has been replaced. *)
Lemma sum_after_replace {A : Type} (key : A -> nat) (mine : A -> bool)
    (f : A -> Q) (a : A) (rows : list A) :
  NoDup (map key rows) ->
  existsb (fun r => Nat.eqb (key r) (key a)) rows = true ->
  py_sum (map f (filter mine
                   (map (fun r => if Nat.eqb (key r) (key a) then a else r)
                        rows)))
  == py_sum (map f (filter (fun r => mine r && negb (Nat.eqb (key r) (key a)))
                           rows))
     + (if mine a then f a else 0).
Proof.
  induction rows as [|r rows IH]; intros Hnd Ex.
  - discriminate Ex.
  - simpl in Hnd. apply NoDup_cons_iff in Hnd. destruct Hnd as (Hr & Hnd).
    cbn [map filter existsb] in *.
    destruct (Nat.eqb (key r) (key a)) eqn:E.
    + assert (Hrest : forall r', In r' rows -> Nat.eqb (key r') (key a) = false).
      { intros r' Hin. destruct (Nat.eqb (key r') (key a)) eqn:E'; [|reflexivity].
        exfalso. apply Hr. apply Nat.eqb_eq in E. apply Nat.eqb_eq in E'.
        rewrite E, <- E'. apply in_map. exact Hin. }
      assert (Hmap : map (fun r0 => if Nat.eqb (key r0) (key a) then a else r0)
                         rows = rows).
      { rewrite <- (map_id rows) at 2. apply map_ext_in. intros r' Hin.
        rewrite (Hrest r' Hin). reflexivity. }
      assert (Hf : filter (fun r0 => mine r0 && negb (Nat.eqb (key r0) (key a)))
                          rows = filter mine rows).
      { apply filter_ext_in. intros r' Hin. rewrite (Hrest r' Hin).
        apply andb_true_r. }
      rewrite Hmap, Hf, andb_false_r. destruct (mine a).
      * cbn [map]. rewrite py_sum_cons. ring.
      * ring.
    + simpl in Ex. rewrite andb_true_r. specialize (IH Hnd Ex).
      destruct (mine r).
      * cbn [map]. rewrite !py_sum_cons, IH. ring.
      * exact IH.
Qed.

(** The same after [save]: the row is replaced when its key is in the
    table and appended otherwise. *)
Lemma sum_after_save {A : Type} (key : A -> nat) (mine : A -> bool)
    (f : A -> Q) (a : A) (rows : list A) :
  NoDup (map key rows) ->
  py_sum (map f (filter mine
                   (if existsb (fun r => Nat.eqb (key r) (key a)) rows
                    then map (fun r => if Nat.eqb (key r) (key a) then a else r)
                             rows
                    else rows ++ [a])))
  == py_sum (map f (filter (fun r => mine r && negb (Nat.eqb (key r) (key a)))
                           rows))
     + (if mine a then f a else 0).
Proof.
  intro Hnd.
  destruct (existsb (fun r => Nat.eqb (key r) (key a)) rows) eqn:Ex.
  - exact (sum_after_replace key mine f a rows Hnd Ex).
  - assert (Hf : filter (fun r => mine r && negb (Nat.eqb (key r) (key a))) rows
                 = filter mine rows).
    { apply filter_ext_in. intros r Hin.
      destruct (Nat.eqb (key r) (key a)) eqn:E; [|apply andb_true_r].
      exfalso.
      assert (existsb (fun r => Nat.eqb (key r) (key a)) rows = true).
      { apply existsb_exists. exists r. split; assumption. }
      congruence. }
    rewrite filter_app, map_app, py_sum_app, Hf. cbn [filter].
    destruct (mine a).
    + cbn [map]. rewrite py_sum_cons. change (py_sum []) with 0. ring.
    + cbn [map]. change (py_sum []) with 0. ring.
Qed.

(** A filter on a column that a row-wise update keeps. *)
Lemma filter_map_kept {A : Type} (p : A -> bool) (g : A -> A) (l : list A) :
  (forall r, p (g r) = p r) -> filter p (map g l) = map g (filter p l).
Proof.
  intro H. induction l as [|a l IH]; simpl; [reflexivity|].
  rewrite H. destruct (p a); simpl; rewrite IH; reflexivity.
Qed.

Lemma py_sum_filter_cons {A : Type} (p : A -> bool) (f : A -> Q) (a : A)
    (l : list A) :
  py_sum (map f (filter p (a :: l)))
  == (if p a then f a else 0) + py_sum (map f (filter p l)).
Proof.
  cbn [filter]. destruct (p a).
  - cbn [map]. rewrite py_sum_cons. reflexivity.
  - ring.
Qed.

End TableFacts.

(** ** Saving an allocation again *)

Module AllocationExtras.
Import Py PyFacts Accounting TradeFacts TotalsFacts PaymentFacts TradeExamples.
Import InvoiceExtras TableFacts.

(** Saving an allocation that was just saved changes no row. *)
Lemma upsert_allocation_twice (rows : list Invoice.Allocation)
    (a : Invoice.Allocation) :
  Invoice.upsert_allocation (Invoice.upsert_allocation rows a) a
  = Invoice.upsert_allocation rows a.
Proof.
  unfold Invoice.upsert_allocation.
  destruct (existsb (fun r => Nat.eqb (Invoice.allocation_id r)
                                      (Invoice.allocation_id a)) rows) eqn:Ex.
  - assert (Ex' : existsb (fun r => Nat.eqb (Invoice.allocation_id r)
                                            (Invoice.allocation_id a))
                    (map (fun r => if Nat.eqb (Invoice.allocation_id r)
                                              (Invoice.allocation_id a)
                                   then a else r) rows) = true).
    { apply existsb_exists in Ex. destruct Ex as (r & Hin & Hr).
      apply existsb_exists. exists a. split; [|apply Nat.eqb_refl].
      apply in_map_iff. exists r. rewrite Hr. split; [reflexivity | exact Hin]. }
    rewrite Ex', map_map. apply map_ext. intro r.
    destruct (Nat.eqb (Invoice.allocation_id r) (Invoice.allocation_id a)) eqn:E.
    + rewrite Nat.eqb_refl. reflexivity.
    + rewrite E. reflexivity.
  - assert (Ex' : existsb (fun r => Nat.eqb (Invoice.allocation_id r)
                                            (Invoice.allocation_id a))
                    (rows ++ [a]) = true).
    { rewrite existsb_app. simpl. rewrite Nat.eqb_refl.
      rewrite orb_true_r. reflexivity. }
    rewrite Ex', map_app. simpl. rewrite Nat.eqb_refl. f_equal.
    rewrite <- (map_id rows) at 2. apply map_ext_in. intros r Hin.
    destruct (Nat.eqb (Invoice.allocation_id r) (Invoice.allocation_id a)) eqn:E;
      [|reflexivity].
    exfalso.
    assert (existsb (fun r => Nat.eqb (Invoice.allocation_id r)
                                      (Invoice.allocation_id a)) rows = true).
    { apply existsb_exists. exists r. split; assumption. }
    congruence.
Qed.

(** Recomputing an invoice or a bill that was just recomputed changes
    nothing. *)
Lemma invoice_totals_twice (app : Invoice.App) (today : Invoice.Date)
    (db : Invoice.Store) (self : Invoice.t) :
  Invoice.calculate_totals app today
    (fst (fst (Invoice.calculate_totals app today db self)))
    (snd (fst (Invoice.calculate_totals app today db self)))
  = Invoice.calculate_totals app today db self.
Proof.
  unfold Invoice.calculate_totals, Invoice.derive_status.
  rewrite !timezone_unbound.
  destruct (Line.tax_loop
              (Line.of_document (Invoice.lines db) (Invoice.id self)) 0)
    as [t [|e]] eqn:E; simpl; [|rewrite E; reflexivity].
  destruct (Qeq_bool (Invoice.paid_amount self) 0) eqn:Ep.
  - simpl. rewrite E. simpl. rewrite Ep. reflexivity.
  - destruct (Qle_bool _ (Invoice.paid_amount self)) eqn:El; simpl;
      rewrite E; simpl; rewrite Ep, El; simpl;
      f_equal; f_equal; unfold Invoice.save_update_fields; simpl; f_equal;
      rewrite map_map; apply map_ext; intro row;
      destruct (Nat.eqb (Invoice.id row) (Invoice.id self)) eqn:Er; simpl;
      rewrite Er; reflexivity.
Qed.

Lemma invoice_store_eta (db : Invoice.Store) :
  {| Invoice.invoices := Invoice.invoices db;
     Invoice.lines := Invoice.lines db;
     Invoice.payment_allocations := Invoice.payment_allocations db |} = db.
Proof. destruct db. reflexivity. Qed.

Lemma set_paid_amount_same (i : Invoice.t) :
  Invoice.set_amount i Invoice.f_paid_amount (Invoice.paid_amount i) = i.
Proof. destruct i. reflexivity. Qed.

(** X14: saving a payment allocation a second time, nothing edited in
    between, leaves the store, the document and the outcome as the first
    save left them: its amount is not counted twice. *)
Theorem allocation_save_twice (app : Invoice.App) (today : Invoice.Date)
    (db : Invoice.Store) (alloc : Invoice.Allocation) (inv : Invoice.t) :
  let once := Invoice.allocation_save app today db alloc inv in
  Invoice.allocation_save app today (fst (fst once)) alloc (snd (fst once))
  = once.
Proof.
  intro once. unfold once, Invoice.allocation_save.
  set (db1 := {| Invoice.invoices := Invoice.invoices db;
                 Invoice.lines := Invoice.lines db;
                 Invoice.payment_allocations :=
                   Invoice.upsert_allocation (Invoice.payment_allocations db)
                     alloc |}).
  set (inv1 := Invoice.set_amount inv Invoice.f_paid_amount
                 (Invoice.total_allocated db1 inv)).
  pose proof (invoice_totals_allocations app today db1 inv1) as Ha.
  destruct (invoice_totals_object app today db1 inv1) as (Hid & Hpaid).
  pose proof (invoice_totals_twice app today db1 inv1) as Ht.
  destruct (Invoice.calculate_totals app today db1 inv1) as [[db2 inv2] r].
  cbn [fst snd] in *.
  assert (Hu : Invoice.upsert_allocation (Invoice.payment_allocations db2) alloc
               = Invoice.payment_allocations db2).
  { rewrite Ha. apply upsert_allocation_twice. }
  rewrite Hu, invoice_store_eta.
  assert (Hs : Invoice.total_allocated db2 inv2 = Invoice.paid_amount inv2).
  { rewrite Hpaid. unfold Invoice.total_allocated. rewrite Ha, Hid.
    reflexivity. }
  rewrite Hs, set_paid_amount_same. exact Ht.
Qed.




End AllocationExtras.

(** ** What a customer owes, what a supplier is owed *)

Module PartyExtras.
Import Py PyFacts TradeFacts TotalsFacts TradeExamples.
Import InvoiceExtras TableFacts.

(** X16: over the same invoices (or bills), the total outstanding of the
    list view is the outstanding balance of the model plus the outstanding
    amounts of the overdue ones: the balance of a customer or supplier, and
    the credit still available to a customer, leave out what is overdue. *)
Theorem total_outstanding_counts_overdue (credit_limit : Q)
    (invoices : list Invoice.t) :
  let late :=
    py_sum (map Invoice.outstanding_amount
              (filter (fun i => Invoice.Status_eqb (Invoice.status i)
                                  Invoice.overdue) invoices)) in
  Party.total_outstanding invoices
  == Party.get_outstanding_balance invoices + late
  /\ Party.get_credit_available credit_limit invoices
     == credit_limit - Party.total_outstanding invoices + late.
Proof.
  intro late.
  assert (H : Party.total_outstanding invoices
              == Party.get_outstanding_balance invoices + late).
  { unfold late, Party.total_outstanding, Party.get_outstanding_balance.
    rewrite !or_0_Sum. induction invoices as [|i invoices IH].
    - reflexivity.
    - rewrite !py_sum_filter_cons, IH. unfold Party.status_in.
      destruct (Invoice.status i); simpl; ring. }
  split; [exact H|]. unfold Party.get_credit_available. rewrite H. ring.
Qed.

(** X17: once a payment allocation is saved and the call has returned, the
    outstanding balance over the invoices of a customer (or the bills of a
    supplier), the ids being distinct, is the balance over the other
    documents plus what is left to pay on the document paid: its total less
    its paid amount when that is positive, nothing once it is paid in full
    or overpaid. *)
Theorem outstanding_balance_after_allocation (app : Invoice.App)
    (today : Invoice.Date) (db db' : Invoice.Store)
    (alloc : Invoice.Allocation) (inv inv' : Invoice.t) (mine : nat -> bool)
    (before after : list Invoice.t) (row : Invoice.t) :
  Invoice.allocation_save app today db alloc inv = (db', inv', Returned) ->
  filter (fun r => mine (Invoice.id r)) (Invoice.invoices db)
  = before ++ row :: after ->
  Invoice.id row = Invoice.id inv ->
  (forall r, In r (before ++ after) -> Invoice.id r <> Invoice.id inv) ->
  Party.get_outstanding_balance
    (filter (fun r => mine (Invoice.id r)) (Invoice.invoices db'))
  == Party.get_outstanding_balance (before ++ after)
     + (if Qle_bool (Invoice.total_amount inv') (Invoice.paid_amount inv')
        then 0
        else Invoice.total_amount inv' - Invoice.paid_amount inv').
Proof.
  intros H Hsplit Hrow Hothers.
  unfold Invoice.allocation_save in H.
  apply invoice_totals_returned in H.
  destruct H as (_ & Hid & _ & Hout & Hst & ->). simpl in Hid.
  rewrite invoice_saved_rows. cbn [Invoice.invoices].
  rewrite filter_map_kept
    by (intro r; destruct (Nat.eqb (Invoice.id r) (Invoice.id inv'));
        reflexivity).
  rewrite Hsplit, map_app.
  match goal with |- context [map ?f before] => set (g := f) end.
  change (map g (row :: after)) with (g row :: map g after).
  assert (Hkeep : forall r, In r (before ++ after) -> g r = r).
  { intros r Hin. unfold g. pose proof (Hothers r Hin) as Hne.
    rewrite Hid. apply Nat.eqb_neq in Hne. rewrite Hne. reflexivity. }
  assert (Hb : map g before = before).
  { rewrite <- (map_id before) at 2. apply map_ext_in. intros r Hin.
    apply Hkeep. apply in_or_app. left. exact Hin. }
  assert (Ha : map g after = after).
  { rewrite <- (map_id after) at 2. apply map_ext_in. intros r Hin.
    apply Hkeep. apply in_or_app. right. exact Hin. }
  rewrite Hb, Ha.
  assert (Hg : Invoice.status (g row) = Invoice.status inv'
               /\ Invoice.outstanding_amount (g row)
                  = Invoice.outstanding_amount inv').
  { unfold g. rewrite Hid, Hrow, Nat.eqb_refl. split; reflexivity. }
  destruct Hg as (Hgs & Hgo).
  assert (Hc : Party.status_in [Invoice.confirmed; Invoice.partial_paid] (g row)
               = negb (Qle_bool (Invoice.total_amount inv')
                                (Invoice.paid_amount inv'))).
  { unfold Party.status_in. rewrite Hgs, Hst.
    destruct (Qle_bool (Invoice.total_amount inv') (Invoice.paid_amount inv'));
      reflexivity. }
  unfold Party.get_outstanding_balance.
  rewrite !or_0_Sum, !filter_app, !map_app, !py_sum_app, py_sum_filter_cons.
  rewrite Hc, Hgo, Hout.
  destruct (Qle_bool (Invoice.total_amount inv') (Invoice.paid_amount inv'));
    simpl; ring.
Qed.

Lemma outstanding_balance_after_allocation_witness :
  let run amount :=
    Invoice.allocation_save Invoice.sales 5%Z (invoice_store [])
      (allocation1 amount) (invoice1 0 Invoice.confirmed) in
  snd (run 400) = Returned
  /\ Party.get_outstanding_balance
       (filter (fun r => true) (Invoice.invoices (fst (fst (run 400)))))
     == 600.
Proof.
  intro run. split; [reflexivity|].
  assert (H : run 400 = (fst (fst (run 400)), snd (fst (run 400)), Returned))
    by reflexivity.
  rewrite (outstanding_balance_after_allocation Invoice.sales 5%Z
             (invoice_store []) _ (allocation1 400)
             (invoice1 0 Invoice.confirmed) _ (fun _ => true)
             [] [] (invoice1 0 Invoice.confirmed) H eq_refl eq_refl).
  - reflexivity.
  - intros r [].
Defined.

End PartyExtras.

(** ** Receiving goods *)

Module ReceivingExtras.
Import Py PyFacts TradeFacts TotalsFacts TradeExamples TableFacts.
Import Receiving.


(** What [receipt_line_save] leaves, however the totals of the order end. *)
Lemma receipt_line_save_value (db : Store) (self : ReceiptLine) (pol : POLine)
    (po : Order.t) :
  let db1 := {| orders := orders db; po_lines := po_lines db;
                receipt_lines := upsert_receipt_line (receipt_lines db) self |} in
  let pol' := {| line := Line.compute (line pol);
                 received_quantity :=
                   py_sum (map quantity_received (receipts_of db1 pol));
                 billed_quantity := billed_quantity pol |} in
  exists ords po' r,
    receipt_line_save db self pol po
    = ({| orders := ords;
          po_lines := upsert_po_line (po_lines db) pol';
          receipt_lines := upsert_receipt_line (receipt_lines db) self |},
       pol', po', r).
Proof.
  intros db1 pol'. unfold receipt_line_save, po_line_save. fold db1.
  cbn [line received_quantity billed_quantity set_received_quantity
       orders po_lines receipt_lines]. fold pol'.
  destruct (Order.calculate_totals _ po) as [[view po'] r].
  exists (Order.orders view), po', r. reflexivity.
Qed.


(** X19: the receipt line ids being distinct, the received quantity a
    receipt line save leaves on the purchase order line is the sum over the
    other receipt lines of that order line plus the received quantity of the
    line saved, when it points to that order line: a receipt line saved again
    replaces what it counted for, and nothing caps the sum at the quantity
    ordered. *)
Theorem receipt_line_save_replaces (db : Store) (self : ReceiptLine)
    (pol : POLine) (po : Order.t) :
  NoDup (map id (receipt_lines db)) ->
  received_quantity (snd (fst (fst (receipt_line_save db self pol po))))
  == py_sum (map quantity_received
               (filter (fun r => Nat.eqb (po_line r) (Line.id (line pol))
                                 && negb (Nat.eqb (id r) (id self)))
                       (receipt_lines db)))
     + (if Nat.eqb (po_line self) (Line.id (line pol))
        then quantity_received self else 0).
Proof.
  intro Hnd.
  destruct (receipt_line_save_value db self pol po) as (ords & po' & r & ->).
  cbn [fst snd received_quantity]. unfold receipts_of, upsert_receipt_line.
  cbn [receipt_lines].
  exact (sum_after_save id
           (fun r => Nat.eqb (po_line r) (Line.id (line pol)))
           quantity_received self (receipt_lines db) Hnd).
Qed.

Lemma receipt_line_save_replaces_witness :
  let ordered := {| line := line_1000 None; received_quantity := 0;
                    billed_quantity := 0 |} in
  let receipt n := {| id := 1; po_line := 1; quantity_ordered := 1;
                      quantity_received := n; quantity_rejected := 0 |} in
  let db := {| orders := [order1]; po_lines := [ordered];
               receipt_lines := [receipt 1] |} in
  NoDup (map id (receipt_lines db))
  /\ received_quantity
       (snd (fst (fst (receipt_line_save db (receipt 3) ordered order1)))) == 3
  /\ get_pending_quantity
       (snd (fst (fst (receipt_line_save db (receipt 3) ordered order1))))
     == - (2).
Proof.
  intros ordered receipt db.
  assert (Hnd : NoDup (map id (receipt_lines db))).
  { simpl. repeat constructor. intros []. }
  split; [exact Hnd|]. split.
  - rewrite (receipt_line_save_replaces db (receipt 3) ordered order1 Hnd).
    reflexivity.
  - reflexivity.
Defined.

End ReceivingExtras.

(** ** Saving a line of an invoice or a bill with some amount paid *)

Module InvoiceLineExtras.
Import Py PyFacts Accounting TradeFacts TotalsFacts PaymentFacts TradeExamples.



End InvoiceLineExtras.
